(** * AI Timesheet Creator

    A shallow embedding of the prompt composer and request orchestrator of
    [services/geminiService.ts] and of the form state of the [App]
    component, followed by the properties of the written specification
    that these functions decide; then of the file upload, the voice
    recorder and the Markdown renderer, with what their code shows of
    them and of the page they make with the form.

    JavaScript strings are sequences of UTF-16 code units; promises are
    modelled by the value they settle to; React state is a record that the
    [set...] functions update, while a handler reads the values of the
    render it was created in. Console logging is left out. *)

From Stdlib Require Import String Ascii List NArith Bool Arith Lia.
Import ListNotations.

Local Open Scope list_scope.

(* ================================================================== *)
(** * JavaScript strings *)
(* ================================================================== *)

Module Js.

(** A UTF-16 code unit and a JavaScript string. *)
Definition codeunit : Type := N.
Definition jsstring : Type := list codeunit.

(** A source literal whose characters are all ASCII. *)
Definition lit (s : string) : jsstring :=
  map N_of_ascii (list_ascii_of_string s).
Arguments lit s%_string.

(** The escape [\n]. *)
Definition LF : jsstring := [10%N].

(** The code units that [String.prototype.trim] strips: ECMAScript
    WhiteSpace (TAB, VT, FF, SP, NBSP, ZWNBSP and the category Zs) and
    LineTerminator (LF, CR, LS, PS). *)
Definition isWhiteSpace (c : codeunit) : bool :=
  ((9 <=? c) && (c <=? 13)
   || (c =? 32) || (c =? 160) || (c =? 5760)
   || ((8192 <=? c) && (c <=? 8202))
   || (c =? 8232) || (c =? 8233) || (c =? 8239) || (c =? 8287)
   || (c =? 12288) || (c =? 65279))%N.

Fixpoint dropWhile (f : codeunit -> bool) (s : jsstring) : jsstring :=
  match s with
  | [] => []
  | c :: s' => if f c then dropWhile f s' else s
  end.

Definition trimStart (s : jsstring) : jsstring := dropWhile isWhiteSpace s.
Definition trimEnd (s : jsstring) : jsstring :=
  rev (dropWhile isWhiteSpace (rev s)).

(** [s.trim()] *)
Definition trim (s : jsstring) : jsstring := trimEnd (trimStart s).

(** ToBoolean on a string: only the empty string is falsy. *)
Definition truthy (s : jsstring) : bool :=
  match s with
  | [] => false
  | _ :: _ => true
  end.

(** [s.startsWith(p)] *)
Fixpoint startsWith (s p : jsstring) {struct p} : bool :=
  match p with
  | [] => true
  | a :: p' =>
      match s with
      | [] => false
      | b :: s' => (b =? a)%N && startsWith s' p'
      end
  end.

(** [s.endsWith(p)] *)
Definition endsWith (s p : jsstring) : bool := startsWith (rev s) (rev p).

(** [s.includes(n)] *)
Fixpoint includes (s n : jsstring) {struct s} : bool :=
  startsWith s n
  || match s with
     | [] => false
     | _ :: s' => includes s' n
     end.

(** A string all of whose code units are white space; [s.trim()] is then
    the empty string. *)
Definition isBlank (s : jsstring) : bool := forallb isWhiteSpace s.

(** The places at which [n] can be cut into two non-empty pieces. *)
Definition cuts (n : jsstring) : list nat := seq 1 (length n - 1).

(** No piece that starts [n] short of its end is the end of [a]; no piece
    that ends [n] short of its start is the start of [b]. An occurrence
    of [n] in [a ++ b] that lies in neither part needs both. *)
Definition tailFree (a n : jsstring) : bool :=
  forallb (fun k => negb (endsWith a (firstn k n))) (cuts n).
Definition headFree (b n : jsstring) : bool :=
  forallb (fun k => negb (startsWith b (skipn k n))) (cuts n).

(** Decimal digits and the hyphen, and the form [YYYY-MM-DD] of the value
    of a date input. *)
Definition isDigit (c : codeunit) : bool := ((48 <=? c) && (c <=? 57))%N.
Definition isHyphen (c : codeunit) : bool := (c =? 45)%N.

Definition isIsoDate (s : jsstring) : bool :=
  match s with
  | [y1; y2; y3; y4; h1; m1; m2; h2; d1; d2] =>
      forallb isDigit [y1; y2; y3; y4; m1; m2; d1; d2]
      && isHyphen h1 && isHyphen h2
  | _ => false
  end.

End Js.

Import Js.

(* ================================================================== *)
(** * services/geminiService.ts *)
(* ================================================================== *)

(** A value that a rejected promise or a [throw] carries. *)
Inductive thrown : Type :=
| ThrownError (message : jsstring)
    (** an instance of [Error] with its message *)
| ThrownObject (message : option jsstring)
    (** any other non-nullish value, with its [message] property if it
        has one (a string) *)
| ThrownNullish.
    (** [null] or [undefined] *)

(** What an awaited promise settles to. *)
Inductive Settled (A : Type) : Type :=
| Fulfilled (a : A)
| Rejected (e : thrown).
Arguments Fulfilled {A} a.
Arguments Rejected {A} e.

Definition await {A B : Type} (c : Settled A) (k : A -> Settled B)
  : Settled B :=
  match c with
  | Fulfilled a => k a
  | Rejected e => Rejected e
  end.

Notation "x <- c ;; k" := (await c (fun x => k))
  (at level 61, c at next level, right associativity).

(** A browser [File]: its declared MIME type and its content. *)
Record File : Type := mkFile {
  type : jsstring;
  content : list N
}.

Record GenerateTimesheetParams : Type := mkParams {
  imageFile : option File;
  calendarText : jsstring;
  narration : jsstring;
  startDate : jsstring
}.

(** The two shapes of object pushed on [parts]. *)
Inductive Part : Type :=
| InlineData (mimeType data : jsstring)
| Text (text : jsstring).

(** The response of the generation service; only [text] is read. *)
Record GenerateContentResponse : Type := mkResponse {
  text : jsstring
}.

(** The pieces of the two template literals of [buildPrompt], cut at the
    interpolations of [startDate]. *)
Definition preambleBeforeDate : jsstring := lit "You are a helpful assistant that generates detailed timesheets in Markdown format. Your task is to analyze the provided calendar information, a voice narration of the week's work, and a starting date. Combine all this information to create a structured timesheet.

**Generate a timesheet for the week commencing ".

Definition preambleAfterDate : jsstring := lit ".**

Here is the information I have provided:
".

Definition instructionsBeforeDate : jsstring := lit "
**Instructions for the output:**

1.  Create a main heading: 'Timesheet for Week Commencing ".

Definition instructionsAfterDate : jsstring := lit "'.
2.  For each day of the week (Monday to Friday, or as indicated by the data), create a subheading.
3.  Under each day, list the activities as bullet points. Incorporate meetings from the calendar data and tasks from the voice narration.
4.  If time estimates are mentioned in the voice narration (e.g., 'I spent 3 hours on Project X'), include them next to the task.
5.  At the end of each day's list, calculate and display the 'Total Hours' for that day in bold.
6.  After all the days, add a 'Weekly Summary' section.
7.  In the summary, calculate and display the 'Total Estimated Hours for the Week' in bold.
8.  Format the entire output as clean, readable Markdown. Use tables for daily summaries if it improves clarity. Ensure the final output is only the markdown, with no extra conversational text or preambles.
".

Definition imageBullet : jsstring := lit "- A calendar screenshot." ++ LF.
Definition textBullet : jsstring := lit "- Text from my calendar." ++ LF.
Definition narrationBullet : jsstring :=
  lit "- A voice narration transcript of my work." ++ LF.

Definition buildPrompt (startDate : jsstring)
    (hasImage hasText hasNarration : bool) : jsstring :=
  let prompt := preambleBeforeDate ++ startDate ++ preambleAfterDate in
  let prompt := if hasImage then prompt ++ imageBullet else prompt in
  let prompt := if hasText then prompt ++ textBullet else prompt in
  let prompt := if hasNarration then prompt ++ narrationBullet else prompt in
  let prompt :=
    prompt ++ instructionsBeforeDate ++ startDate ++ instructionsAfterDate in
  prompt.

(** The bullets that [buildPrompt] appends between the two literals, and
    the text between the two interpolations of [startDate]. *)
Definition inventory (hasImage hasText hasNarration : bool) : jsstring :=
  (if hasImage then imageBullet else [])
  ++ (if hasText then textBullet else [])
  ++ (if hasNarration then narrationBullet else []).

Definition betweenDates (hasImage hasText hasNarration : bool) : jsstring :=
  preambleAfterDate ++ inventory hasImage hasText hasNarration
  ++ instructionsBeforeDate.



(** The test, on the fixed text of the prompt alone, that [n] neither
    occurs in it nor can run over one of its ends into an interpolated
    date. *)
Definition fixedTextClear (n : jsstring)
    (hasImage hasText hasNarration : bool) : bool :=
  let m := betweenDates hasImage hasText hasNarration in
  negb (includes preambleBeforeDate n) && tailFree preambleBeforeDate n
  && negb (includes m n) && tailFree m n && headFree m n
  && (length n <=? length m)
  && negb (includes instructionsAfterDate n)
  && headFree instructionsAfterDate n
  && tailFree instructionsAfterDate n
  && (length n <=? length instructionsAfterDate).

Definition model : jsstring := lit "gemini-2.5-flash".

(** The header lines of the two sections and, with the line feeds of the
    source around them, the text put before each section's content. *)
Definition calendarHeader : jsstring := lit "--- CALENDAR TEXT ---".
Definition narrationHeader : jsstring :=
  lit "--- VOICE NARRATION TRANSCRIPT ---".

Definition calendarTextDelimiter : jsstring :=
  LF ++ LF ++ calendarHeader ++ LF.
Definition narrationDelimiter : jsstring :=
  LF ++ LF ++ narrationHeader ++ LF.

(** [!!imageFile] *)
Definition present {A : Type} (o : option A) : bool :=
  match o with
  | Some _ => true
  | None => false
  end.

(** The text of the last part (lines 65 to 74 of the service). *)
Definition combinedText (p : GenerateTimesheetParams) : jsstring :=
  let promptText :=
    buildPrompt (startDate p) (present (imageFile p))
      (truthy (trim (calendarText p))) (truthy (trim (narration p))) in
  let combinedText := promptText in
  let combinedText :=
    if truthy (trim (calendarText p))
    then combinedText ++ calendarTextDelimiter ++ calendarText p
    else combinedText in
  let combinedText :=
    if truthy (trim (narration p))
    then combinedText ++ narrationDelimiter ++ narration p
    else combinedText in
  combinedText.

(** The prompt inside [combinedText]. *)
Definition promptText (p : GenerateTimesheetParams) : jsstring :=
  buildPrompt (startDate p) (present (imageFile p))
    (truthy (trim (calendarText p))) (truthy (trim (narration p))).

(** A text has a section when it contains the section's header line. The
    reading of the specification that ties each section to its input alone:
    the section is there exactly when the input is not blank. *)
Definition hasCalendarSection (s : jsstring) : bool :=
  includes s calendarHeader.
Definition hasNarrationSection (s : jsstring) : bool :=
  includes s narrationHeader.

Definition sectionsFollowInputs (p : GenerateTimesheetParams) : Prop :=
  (hasCalendarSection (combinedText p) = true
   <-> isBlank (calendarText p) = false)
  /\ (hasNarrationSection (combinedText p) = true
      <-> isBlank (narration p) = false).

Definition errorPrefix : jsstring :=
  lit "Error: An error occurred while generating the timesheet. ".
Definition unknownError : jsstring :=
  lit "Error: An unknown error occurred while generating the timesheet.".

Section Orchestrator.

(** [fileToBase64] of [utils/fileUtils] and [ai.models.generateContent]
    of the service library are outside the repository's sources: they
    are parameters, each giving what its promise settles to. *)
Variable fileToBase64 : File -> Settled jsstring.
Variable generateContent :
  jsstring -> list Part -> Settled GenerateContentResponse.

(** The array [parts] at the time of the generation call (lines 53 to
    76): the promise of [generateTimesheet] rejects when the encoding of
    the image does. *)
Definition requestParts (p : GenerateTimesheetParams)
  : Settled (list Part) :=
  parts <- match imageFile p with
           | Some f =>
               base64Image <- fileToBase64 f ;;
               Fulfilled [InlineData (type f) base64Image]
           | None => Fulfilled []
           end ;;
  Fulfilled (parts ++ [Text (combinedText p)]).

Definition generateTimesheet (p : GenerateTimesheetParams)
  : Settled jsstring :=
  parts <- requestParts p ;;
  match generateContent model parts with
  | Fulfilled response => Fulfilled (text response)
  | Rejected error =>
      match error with
      | ThrownError message =>      (* error instanceof Error *)
          Fulfilled (errorPrefix ++ message)
      | _ => Fulfilled unknownError
      end
  end.

End Orchestrator.

(* ================================================================== *)
(** * The App component *)
(* ================================================================== *)

(** The state cells of [App], in the order of their [useState] calls. *)
Record AppState : Type := mkApp {
  screenshotFile : option File;
  appCalendarText : jsstring;
  appNarration : jsstring;
  weekStartDate : jsstring;
  generatedTimesheet : jsstring;
  isLoading : bool;
  error : option jsstring
}.

Definition setGeneratedTimesheet (v : jsstring) (st : AppState) : AppState :=
  mkApp (screenshotFile st) (appCalendarText st) (appNarration st)
        (weekStartDate st) v (isLoading st) (error st).

Definition setIsLoading (v : bool) (st : AppState) : AppState :=
  mkApp (screenshotFile st) (appCalendarText st) (appNarration st)
        (weekStartDate st) (generatedTimesheet st) v (error st).

Definition setError (v : option jsstring) (st : AppState) : AppState :=
  mkApp (screenshotFile st) (appCalendarText st) (appNarration st)
        (weekStartDate st) (generatedTimesheet st) (isLoading st) v.

(** The truth value of
    [(narration.trim() || calendarText.trim() || screenshotFile) && weekStartDate];
    the expression is only ever negated. *)
Definition isFormValid (st : AppState) : bool :=
  (truthy (trim (appNarration st))
   || truthy (trim (appCalendarText st))
   || present (screenshotFile st))
  && truthy (weekStartDate st).

Definition validationMessage : jsstring :=
  lit "Please provide calendar info (screenshot or text) or a voice narration, and select a start date.".

Definition errorMarker : jsstring := lit "Error:".

Definition unknownSubmitError : jsstring := lit "An unknown error occurred.".

(** The argument of the call of [generateTimesheet], from the values of
    the current render. *)
Definition submission (st : AppState) : GenerateTimesheetParams :=
  mkParams (screenshotFile st) (appCalendarText st) (appNarration st)
           (weekStartDate st).

(** The three updates made before the [try] block. *)
Definition beforeCall (st : AppState) : AppState :=
  setGeneratedTimesheet [] (setIsLoading true (setError None st)).

(** The body of the [try] block after the awaited call returned [result]. *)
Definition onResult (result : jsstring) (st : AppState) : AppState :=
  if startsWith result errorMarker
  then setError (Some result) st
  else setGeneratedTimesheet result st.

(** How a handler ends. *)
Inductive completion : Type :=
| Returns
| ThrowsTypeError.

(** The [catch] block: [e.message || 'An unknown error occurred.'];
    reading [message] of a nullish value throws a TypeError out of the
    block. *)
Definition onCatch (e : thrown) (st : AppState) : AppState * completion :=
  let orDefault (m : option jsstring) :=
    match m with
    | Some s => if truthy s then s else unknownSubmitError
    | None => unknownSubmitError
    end in
  match e with
  | ThrownError message =>
      (setError (Some (orDefault (Some message))) st, Returns)
  | ThrownObject message =>
      (setError (Some (orDefault message)) st, Returns)
  | ThrownNullish => (st, ThrowsTypeError)
  end.

Section Handlers.

Variable fileToBase64 : File -> Settled jsstring.
Variable generateContent :
  jsstring -> list Part -> Settled GenerateContentResponse.

(** [handleSubmit]: the state after the handler has run to its end, and
    how it ended. *)
Definition handleSubmit (st : AppState) : AppState * completion :=
  if negb (isFormValid st) then
    (setError (Some validationMessage) st, Returns)
  else
    let st1 := beforeCall st in
    let '(st2, end_) :=
      match generateTimesheet fileToBase64 generateContent (submission st)
      with
      | Fulfilled result => (onResult result st1, Returns)
      | Rejected e => onCatch e st1
      end in
    (setIsLoading false st2, end_).                    (* finally *)

End Handlers.

(** The call [downloadTextFile(content, filename)] that [handleDownload]
    makes, if it makes one. *)
Record Download : Type := mkDownload {
  downloadContent : jsstring;
  filename : jsstring
}.

Definition handleDownload (st : AppState) : option Download :=
  if negb (truthy (generatedTimesheet st)) then None
  else
    let filename :=
      lit "timesheet-for-week-commencing-" ++ weekStartDate st ++ lit ".md" in
    Some (mkDownload (generatedTimesheet st) filename).

(** What the component renders of the two results: the alert when [error]
    is truthy, the timesheet panel when [generatedTimesheet] is. *)
Definition showsError (st : AppState) : bool :=
  match error st with
  | Some e => truthy e
  | None => false
  end.

Definition showsTimesheet (st : AppState) : bool :=
  truthy (generatedTimesheet st).

(* ================================================================== *)
(** * The other state updates of the App component *)
(* ================================================================== *)

Definition setScreenshotFile (v : option File) (st : AppState) : AppState :=
  mkApp v (appCalendarText st) (appNarration st) (weekStartDate st)
        (generatedTimesheet st) (isLoading st) (error st).

Definition setCalendarText (v : jsstring) (st : AppState) : AppState :=
  mkApp (screenshotFile st) v (appNarration st) (weekStartDate st)
        (generatedTimesheet st) (isLoading st) (error st).

Definition setNarration (v : jsstring) (st : AppState) : AppState :=
  mkApp (screenshotFile st) (appCalendarText st) v (weekStartDate st)
        (generatedTimesheet st) (isLoading st) (error st).

Definition setWeekStartDate (v : jsstring) (st : AppState) : AppState :=
  mkApp (screenshotFile st) (appCalendarText st) (appNarration st) v
        (generatedTimesheet st) (isLoading st) (error st).

(** [disabled={!isFormValid || isLoading}] of the submit button. *)
Definition submitDisabled (st : AppState) : bool :=
  negb (isFormValid st) || isLoading st.

(* ================================================================== *)
(** * components/MarkdownRenderer.tsx *)
(* ================================================================== *)

Module MarkdownRenderer.

(** What of [window] the component looks at: [marked.parse] and
    [DOMPurify.sanitize], each when it is a function. *)
Record Window : Type := mkWindow {
  markedParse : option (jsstring -> jsstring);
  sanitize : option (jsstring -> jsstring)
}.

(** [s.replace(/c/g, by)] for a single character [c] and a replacement
    without [$]. *)
Definition replaceAll (c : codeunit) (by_ : jsstring) (s : jsstring)
  : jsstring :=
  flat_map (fun x => if (x =? c)%N then by_ else [x]) s.

Definition lessThan : codeunit := 60%N.
Definition greaterThan : codeunit := 62%N.

(** [content.replace(/</g, "&lt;").replace(/>/g, "&gt;")] *)
Definition escaped (content : jsstring) : jsstring :=
  replaceAll greaterThan (lit "&gt;")
    (replaceAll lessThan (lit "&lt;") content).

Definition sanitizedHtml (w : Window) (content : jsstring) : jsstring :=
  match markedParse w, sanitize w with
  | Some parse, Some purify =>
      let rawHtml := parse content in
      purify rawHtml
  | _, _ => lit "<pre>" ++ escaped content ++ lit "</pre>"
  end.

(** What the two replacements make of one code unit. *)
Definition escapedUnit (c : codeunit) : jsstring :=
  if (c =? lessThan)%N then lit "&lt;"
  else if (c =? greaterThan)%N then lit "&gt;"
  else [c].

(** An angle bracket. *)
Definition isAngle (c : codeunit) : bool :=
  ((c =? lessThan) || (c =? greaterThan))%N.

End MarkdownRenderer.

(* ================================================================== *)
(** * components/FileUpload.tsx *)
(* ================================================================== *)

Module FileUpload.

Record State : Type := mkState {
  imagePreview : option jsstring
}.

Definition initial : State := mkState None.

(** A handler gives the new state and the arguments of the calls of
    [onFileSelect] that it made. *)
Definition handleRemoveFile (st : State) : State * list (option File) :=
  (mkState None, [None]).

(** [handleFileChange] with [event.target.files?.[0]]; the reader it
    starts for an image reports later, through [onloadend]. *)
Definition handleFileChange (file : option File) (st : State)
  : State * list (option File) :=
  match file with
  | Some f =>
      if startsWith (type f) (lit "image/")
      then (st, [Some f])
      else handleRemoveFile st
  | None => handleRemoveFile st
  end.

(** [reader.onloadend], with [reader.result] ([null] after a failed
    read). *)
Definition onloadend (result : option jsstring) (st : State) : State :=
  mkState result.

(** [imagePreview ? ... : ...]: the preview and its remove button, or
    else the file input. *)
Definition showsPreview (st : State) : bool :=
  match imagePreview st with
  | Some url => truthy url
  | None => false
  end.

End FileUpload.

(* ================================================================== *)
(** * components/VoiceRecorder.tsx *)
(* ================================================================== *)

Module VoiceRecorder.

(** The members of [RecordingState] that the component uses. *)
Inductive RecordingState : Type := IDLE | RECORDING | FINISHED.

(** The [state] of a [MediaRecorder]. *)
Inductive MediaRecorderState : Type := inactive | recording | paused.

(** The three state cells and the three refs; a ref to a recorder is
    taken by the state of the recorder, the ref to the recogniser by
    whether it is set. *)
Record State : Type := mkState {
  recordingState : RecordingState;
  transcript : jsstring;
  error : option jsstring;
  mediaRecorderRef : option MediaRecorderState;
  recognitionRef : bool;
  finalTranscriptRef : jsstring
}.

Definition initial : State := mkState IDLE [] None None false [].

Definition setRecordingState (v : RecordingState) (st : State) : State :=
  mkState v (transcript st) (error st) (mediaRecorderRef st)
          (recognitionRef st) (finalTranscriptRef st).
Definition setTranscript (v : jsstring) (st : State) : State :=
  mkState (recordingState st) v (error st) (mediaRecorderRef st)
          (recognitionRef st) (finalTranscriptRef st).
Definition setError (v : option jsstring) (st : State) : State :=
  mkState (recordingState st) (transcript st) v (mediaRecorderRef st)
          (recognitionRef st) (finalTranscriptRef st).
Definition setMediaRecorderRef (v : option MediaRecorderState) (st : State)
  : State :=
  mkState (recordingState st) (transcript st) (error st) v
          (recognitionRef st) (finalTranscriptRef st).
Definition setRecognitionRef (v : bool) (st : State) : State :=
  mkState (recordingState st) (transcript st) (error st)
          (mediaRecorderRef st) v (finalTranscriptRef st).
Definition setFinalTranscriptRef (v : jsstring) (st : State) : State :=
  mkState (recordingState st) (transcript st) (error st)
          (mediaRecorderRef st) (recognitionRef st) v.

(** [recorder.stop()] on the recorder of the ref. *)
Definition stopRecorder (st : State) : State :=
  match mediaRecorderRef st with
  | Some _ => setMediaRecorderRef (Some inactive) st
  | None => st
  end.

(** A handler gives the new state and the arguments of the calls of
    [onTranscriptionComplete] that it made. *)
Definition resetState (st : State) : State * list jsstring :=
  let st :=
    match mediaRecorderRef st with
    | Some inactive | None => st
    | Some _ => stopRecorder st
    end in
  let st := setRecordingState IDLE st in
  let st := setTranscript [] st in
  let st := setFinalTranscriptRef [] st in
  let st := setError None st in
  let st := setMediaRecorderRef None st in
  let st := setRecognitionRef false st in
  (st, [[]]).

(** An entry of [event.results]: its [isFinal] and the [transcript] of
    its first alternative. *)
Record SpeechResult : Type := mkResult {
  isFinal : bool;
  alternative : jsstring
}.

Record ResultEvent : Type := mkEvent {
  resultIndex : nat;
  results : list SpeechResult
}.

(** The loop of [onresult] over the results from [resultIndex] on, on
    [finalTranscriptRef.current] and [interimTranscript]. *)
Fixpoint collect (rs : list SpeechResult) (final interim : jsstring)
  : jsstring * jsstring :=
  match rs with
  | [] => (final, interim)
  | r :: rs' =>
      if isFinal r
      then collect rs' (final ++ alternative r ++ lit " ") interim
      else collect rs' final (interim ++ alternative r)
  end.

Definition onresult (event : ResultEvent) (st : State) : State :=
  let '(final, interimTranscript) :=
    collect (skipn (resultIndex event) (results event))
            (finalTranscriptRef st) [] in
  setTranscript (final ++ interimTranscript) (setFinalTranscriptRef final st).

Definition noSpeech : jsstring := lit "no-speech".

Definition onerror (e : jsstring) (st : State) : State :=
  if list_eq_dec N.eq_dec e noSpeech then st
  else setError (Some (lit "Speech recognition error: " ++ e)) st.

Definition unsupportedMessage : jsstring :=
  lit "Speech recognition is not supported in this browser.".
Definition microphoneMessage : jsstring :=
  lit "Could not access microphone. Please grant permission.".

(** [setupRecognition], given [isSpeechRecognitionSupported]. *)
Definition setupRecognition (supported : bool) (st : State) : State * bool :=
  if negb supported then (setError (Some unsupportedMessage) st, false)
  else (setRecognitionRef true st, true).

(** How the [try] block of [startRecording] ends: it runs to its end, or
    one of its calls throws ([getUserMedia] rejecting among them). *)
Inductive TryOutcome : Type := Started | Threw.

Definition startRecording (supported : bool) (outcome : TryOutcome)
    (st : State) : State * list jsstring :=
  let '(st, calls) := resetState st in
  let '(st, ok) := setupRecognition supported st in
  if negb ok then (st, calls)
  else
    match outcome with
    | Started =>
        let st := setMediaRecorderRef (Some recording) st in
        let st := setRecordingState RECORDING st in
        (st, calls)
    | Threw =>
        let st := setError (Some microphoneMessage) st in
        let '(st, calls') := resetState st in
        (st, calls ++ calls')
    end.

Definition stopRecording (st : State) : State :=
  match mediaRecorderRef st with
  | Some recording | Some paused => stopRecorder st
  | _ => st
  end.

(** [recorder.onstop] *)
Definition onstop (st : State) : State * list jsstring :=
  let st := setRecordingState FINISHED st in
  (st, [trim (finalTranscriptRef st)]).

(** What a recognition session adds to the final transcript: its final
    results, each followed by a space; and what it shows besides. *)
Definition finals (rs : list SpeechResult) : jsstring :=
  flat_map (fun r => alternative r ++ lit " ") (filter isFinal rs).
Definition interims (rs : list SpeechResult) : jsstring :=
  flat_map alternative (filter (fun r => negb (isFinal r)) rs).

End VoiceRecorder.

(* ================================================================== *)
(** * The page: App with its two input components *)
(* ================================================================== *)

Record Page : Type := mkPage {
  app : AppState;
  upload : FileUpload.State;
  voice : VoiceRecorder.State
}.

(** The first render: no file, no text, no narration, the Monday of the
    current week as [weekStartDate]. *)
Definition initialPage (weekStartDate : jsstring) : Page :=
  mkPage (mkApp None [] [] weekStartDate [] false None)
         FileUpload.initial VoiceRecorder.initial.

(** [onFileSelect={setScreenshotFile}] and
    [onTranscriptionComplete={setNarration}]: the calls a handler made,
    applied in order. *)
Definition selectFiles (calls : list (option File)) (st : AppState)
  : AppState :=
  fold_left (fun s v => setScreenshotFile v s) calls st.

Definition completeTranscriptions (calls : list jsstring) (st : AppState)
  : AppState :=
  fold_left (fun s v => setNarration v s) calls st.

(** No file, or one of an image type. *)
Definition imageTyped (o : option File) : bool :=
  match o with
  | Some f => startsWith (type f) (lit "image/")
  | None => true
  end.

(** What can happen on the page: the user's actions, each possible only
    while its control is rendered and enabled, and the callbacks of the
    browser. *)
Inductive Event : Type :=
| ChangeWeekStartDate (value : jsstring)
| ChangeCalendarText (value : jsstring)
| ChooseFile (file : option File)
| ClickRemoveImage
| FileLoaded (result : option jsstring)
| ClickRecord (outcome : VoiceRecorder.TryOutcome)
| ClickStop
| RecorderStopped
| ClickRetake
| SpeechResults (event : VoiceRecorder.ResultEvent)
| SpeechError (e : jsstring)
| ClickGenerate.

Definition isIdle (s : VoiceRecorder.RecordingState) : bool :=
  match s with VoiceRecorder.IDLE => true | _ => false end.
Definition isRecording (s : VoiceRecorder.RecordingState) : bool :=
  match s with VoiceRecorder.RECORDING => true | _ => false end.
Definition isFinished (s : VoiceRecorder.RecordingState) : bool :=
  match s with VoiceRecorder.FINISHED => true | _ => false end.

Section PageSteps.

Variable isSpeechRecognitionSupported : bool.
Variable fileToBase64 : File -> Settled jsstring.
Variable generateContent :
  jsstring -> list Part -> Settled GenerateContentResponse.

(** One event; a submission is taken from the click to the end of
    [handleSubmit]. *)
Definition step (pg : Page) (e : Event) : Page :=
  match e with
  | ChangeWeekStartDate value =>
      mkPage (setWeekStartDate value (app pg)) (upload pg) (voice pg)
  | ChangeCalendarText value =>
      mkPage (setCalendarText value (app pg)) (upload pg) (voice pg)
  | ChooseFile file =>
      if FileUpload.showsPreview (upload pg) then pg
      else
        let '(up, calls) := FileUpload.handleFileChange file (upload pg) in
        mkPage (selectFiles calls (app pg)) up (voice pg)
  | ClickRemoveImage =>
      if FileUpload.showsPreview (upload pg) then
        let '(up, calls) := FileUpload.handleRemoveFile (upload pg) in
        mkPage (selectFiles calls (app pg)) up (voice pg)
      else pg
  | FileLoaded result =>
      mkPage (app pg) (FileUpload.onloadend result (upload pg)) (voice pg)
  | ClickRecord outcome =>
      if isIdle (VoiceRecorder.recordingState (voice pg)) then
        let '(v, calls) :=
          VoiceRecorder.startRecording isSpeechRecognitionSupported outcome
            (voice pg) in
        mkPage (completeTranscriptions calls (app pg)) (upload pg) v
      else pg
  | ClickStop =>
      if isRecording (VoiceRecorder.recordingState (voice pg)) then
        mkPage (app pg) (upload pg) (VoiceRecorder.stopRecording (voice pg))
      else pg
  | RecorderStopped =>
      let '(v, calls) := VoiceRecorder.onstop (voice pg) in
      mkPage (completeTranscriptions calls (app pg)) (upload pg) v
  | ClickRetake =>
      if isFinished (VoiceRecorder.recordingState (voice pg)) then
        let '(v, calls) := VoiceRecorder.resetState (voice pg) in
        mkPage (completeTranscriptions calls (app pg)) (upload pg) v
      else pg
  | SpeechResults event =>
      mkPage (app pg) (upload pg) (VoiceRecorder.onresult event (voice pg))
  | SpeechError e =>
      mkPage (app pg) (upload pg) (VoiceRecorder.onerror e (voice pg))
  | ClickGenerate =>
      if submitDisabled (app pg) then pg
      else
        mkPage (fst (handleSubmit fileToBase64 generateContent (app pg)))
               (upload pg) (voice pg)
  end.

Definition run (pg : Page) (events : list Event) : Page :=
  fold_left step events pg.

End PageSteps.

(** The narration of the form is trimmed, and there is one only while the
    recorder is in the state FINISHED. *)
Definition narrationSettled (pg : Page) : Prop :=
  trim (appNarration (app pg)) = appNarration (app pg)
  /\ (appNarration (app pg) <> [] ->
      VoiceRecorder.recordingState (voice pg) = VoiceRecorder.FINISHED).

(* ================================================================== *)
(** * Sample inputs *)
(* ================================================================== *)

(** A submission with a blank narration whose pasted calendar text holds
    the header line of the narration section. *)
Definition pastedHeader : GenerateTimesheetParams :=
  mkParams None
    (lit "Mon 10am sync" ++ narrationDelimiter ++ lit "as dictated")
    []
    (lit "2024-03-04").

Definition bothInputs : GenerateTimesheetParams :=
  mkParams None (lit "Mon 10am sync") (lit "three hours on the report")
    (lit "2024-03-04").

(** Stand-ins for the two external functions. *)
Definition encodes : File -> Settled jsstring :=
  fun _ => Fulfilled (lit "iVBORw0KGgo=").
Definition encodingFails : File -> Settled jsstring :=
  fun _ => Rejected (ThrownError (lit "The file could not be read")).
Definition throwsQuota
  : jsstring -> list Part -> Settled GenerateContentResponse :=
  fun _ _ => Rejected (ThrownError (lit "quota exceeded")).
Definition throwsString
  : jsstring -> list Part -> Settled GenerateContentResponse :=
  fun _ _ => Rejected (ThrownObject None).
Definition respondsWith (s : jsstring)
  : jsstring -> list Part -> Settled GenerateContentResponse :=
  fun _ _ => Fulfilled (mkResponse s).

Definition screenshot : File := mkFile (lit "image/png") [137; 80; 78; 71]%N.

Definition withImage : GenerateTimesheetParams :=
  mkParams (Some screenshot) [] [] (lit "2024-03-04").

(** A form with a narration, an ISO date and the timesheet of an earlier
    submission on display. *)
Definition narratedForm : AppState :=
  mkApp None [] (lit "three hours on the report") (lit "2024-03-04")
        (lit "## Monday") false None.

(** Markdown that a model could return and that starts with the marker. *)
Definition markdownWithMarker : jsstring :=
  lit "Error: budget review, two hours".


(* ================================================================== *)
(** * Facts about strings *)
(* ================================================================== *)

Section StringFacts.

Implicit Types s p n a b t : jsstring.

Lemma startsWith_nil s : startsWith s [] = true.
Proof. destruct s; reflexivity. Qed.

Lemma startsWith_app p t : startsWith (p ++ t) p = true.
Proof.
  induction p as [|c p IH]; simpl.
  - reflexivity.
  - rewrite N.eqb_refl, IH. reflexivity.
Qed.

Lemma startsWith_refl p : startsWith p p = true.
Proof. rewrite <- (app_nil_r p) at 1. apply startsWith_app. Qed.

Lemma startsWith_inv s p :
  startsWith s p = true -> exists t, s = p ++ t.
Proof.
  revert s. induction p as [|c p IH]; intros s H.
  - exists s. reflexivity.
  - destruct s as [|b s]; simpl in H; [discriminate|].
    apply andb_prop in H. destruct H as [Hc Hs].
    apply N.eqb_eq in Hc. subst b.
    destruct (IH _ Hs) as [t ->]. exists t. reflexivity.
Qed.

Lemma startsWith_weaken s t p :
  startsWith s p = true -> startsWith (s ++ t) p = true.
Proof.
  intros H. destruct (startsWith_inv _ _ H) as [u ->].
  rewrite <- app_assoc. apply startsWith_app.
Qed.

(** A prefix test on a concatenation is decided by the first part when
    the prefix fits in it. *)
Lemma startsWith_short s t p :
  length p <= length s -> startsWith (s ++ t) p = startsWith s p.
Proof.
  revert s. induction p as [|c p IH]; intros s Hl.
  - rewrite !startsWith_nil. reflexivity.
  - destruct s as [|b s]; simpl in Hl; [lia|].
    simpl. rewrite IH by lia. reflexivity.
Qed.

Lemma startsWith_app_inv s b n :
  startsWith (s ++ b) n = true ->
  startsWith s n = true
  \/ exists n2, n = s ++ n2 /\ n2 <> [] /\ startsWith b n2 = true.
Proof.
  revert n. induction s as [|c s IH]; intros n H.
  - destruct n as [|x n]; [left; reflexivity|].
    right. exists (x :: n). repeat split; [discriminate | exact H].
  - destruct n as [|x n]; [left; reflexivity|].
    simpl in H. apply andb_prop in H. destruct H as [Hc Hs].
    destruct (IH _ Hs) as [Hl | (n2 & -> & Hne & Hb)].
    + left. simpl. rewrite Hc, Hl. reflexivity.
    + right. exists n2. apply N.eqb_eq in Hc. subst x.
      repeat split; assumption.
Qed.

Lemma startsWith_includes s n : startsWith s n = true -> includes s n = true.
Proof. intros H. destruct s; simpl; rewrite H; reflexivity. Qed.

Lemma includes_cons c s n : includes s n = true -> includes (c :: s) n = true.
Proof. intros H. simpl. rewrite H. apply orb_true_r. Qed.

Lemma includes_app_r a b n : includes b n = true -> includes (a ++ b) n = true.
Proof.
  intros H. induction a as [|c a IH]; [exact H|].
  simpl app. apply includes_cons, IH.
Qed.

Lemma includes_app_l a b n : includes a n = true -> includes (a ++ b) n = true.
Proof.
  induction a as [|c a IH]; intros H.
  - simpl in H. rewrite orb_false_r in H.
    destruct n; [|discriminate].
    apply startsWith_includes, startsWith_nil.
  - simpl in H. apply orb_prop in H. destruct H as [H | H].
    + apply startsWith_includes.
      exact (startsWith_weaken (c :: a) b n H).
    + simpl app. apply includes_cons, IH, H.
Qed.

(** [includes] finds exactly the strings that occur somewhere. *)
Lemma includes_intro a n b : includes (a ++ n ++ b) n = true.
Proof. apply includes_app_r, startsWith_includes, startsWith_app. Qed.

Lemma includes_inv s n :
  includes s n = true -> exists a b, s = a ++ n ++ b.
Proof.
  induction s as [|c s IH]; intros H.
  - simpl in H. rewrite orb_false_r in H.
    destruct (startsWith_inv _ _ H) as [t Ht]. exists [], t. exact Ht.
  - simpl in H. apply orb_prop in H. destruct H as [H | H].
    + destruct (startsWith_inv _ _ H) as [t Ht]. exists [], t. exact Ht.
    + destruct (IH H) as (a & b & ->). exists (c :: a), b. reflexivity.
Qed.

(** The code units of an included string all occur in the string. *)
Lemma includes_forallb (f : codeunit -> bool) s n :
  includes s n = true -> forallb f s = true -> forallb f n = true.
Proof.
  intros H Hs. destruct (includes_inv _ _ H) as (a & b & ->).
  rewrite !forallb_app in Hs.
  apply andb_prop in Hs. destruct Hs as [_ Hs].
  apply andb_prop in Hs. tauto.
Qed.

Lemma endsWith_refl p : endsWith p p = true.
Proof. apply startsWith_refl. Qed.

Lemma endsWith_cons c s p : endsWith s p = true -> endsWith (c :: s) p = true.
Proof. unfold endsWith. simpl rev. apply startsWith_weaken. Qed.

Lemma endsWith_short s t p :
  length p <= length s -> endsWith (t ++ s) p = endsWith s p.
Proof.
  intros Hl. unfold endsWith. rewrite rev_app_distr.
  apply startsWith_short. rewrite !length_rev. exact Hl.
Qed.

Lemma includes_app_inv a b n :
  includes (a ++ b) n = true ->
  includes a n = true \/ includes b n = true
  \/ exists k, In k (cuts n)
               /\ endsWith a (firstn k n) = true
               /\ startsWith b (skipn k n) = true.
Proof.
  induction a as [|c a IH]; intros H.
  - right; left. exact H.
  - simpl app in H. simpl includes in H.
    apply orb_prop in H. destruct H as [H | H].
    + destruct (startsWith_app_inv (c :: a) b n H)
        as [Hl | (n2 & -> & Hne & Hb)].
      * left. apply startsWith_includes, Hl.
      * right; right. exists (length (c :: a)).
        rewrite firstn_app, firstn_all, Nat.sub_diag, firstn_O, app_nil_r.
        rewrite skipn_app, skipn_all, Nat.sub_diag, skipn_O.
        repeat split; [| apply endsWith_refl | exact Hb].
        unfold cuts. apply in_seq. rewrite length_app.
        destruct n2; [congruence|]. simpl. lia.
    + destruct (IH H) as [Ha | [Hb | (k & Hk & He & Hs)]].
      * left. apply includes_cons, Ha.
      * right; left. exact Hb.
      * right; right. exists k. repeat split; try assumption.
        apply endsWith_cons, He.
Qed.

(** How a string is shown absent from a concatenation. *)
Lemma absent_app a b n :
  includes a n = false -> includes b n = false ->
  tailFree a n = true \/ headFree b n = true ->
  includes (a ++ b) n = false.
Proof.
  intros Ha Hb Hfree.
  destruct (includes (a ++ b) n) eqn:E; [exfalso | reflexivity].
  destruct (includes_app_inv _ _ _ E) as [H | [H | (k & Hk & He & Hs)]];
    [congruence | congruence |].
  destruct Hfree as [Hf | Hf];
    apply (proj1 (forallb_forall _ _) Hf) in Hk;
    [rewrite He in Hk | rewrite Hs in Hk]; discriminate.
Qed.

Lemma tailFree_app t a n :
  length n <= length a -> tailFree a n = true -> tailFree (t ++ a) n = true.
Proof.
  intros Hl H. apply forallb_forall. intros k Hk.
  rewrite endsWith_short.
  - exact (proj1 (forallb_forall _ _) H k Hk).
  - rewrite length_firstn. lia.
Qed.

Lemma headFree_app b t n :
  length n <= length b -> headFree b n = true -> headFree (b ++ t) n = true.
Proof.
  intros Hl H. apply forallb_forall. intros k Hk.
  rewrite startsWith_short.
  - exact (proj1 (forallb_forall _ _) H k Hk).
  - rewrite length_skipn. lia.
Qed.

(** ** Trimming *)

Lemma dropWhile_nil f s : dropWhile f s = [] <-> forallb f s = true.
Proof.
  induction s as [|c s IH]; simpl.
  - tauto.
  - destruct (f c); simpl; [exact IH|]. split; discriminate.
Qed.

Lemma forallb_dropWhile f s : forallb f (dropWhile f s) = forallb f s.
Proof.
  induction s as [|c s IH]; simpl; [reflexivity|].
  destruct (f c) eqn:E; simpl; [exact IH|]. rewrite E. reflexivity.
Qed.

Lemma forallb_rev_eq (f : codeunit -> bool) s :
  forallb f (rev s) = forallb f s.
Proof.
  induction s as [|c s IH]; simpl; [reflexivity|].
  rewrite forallb_app, IH. simpl. rewrite andb_true_r. apply andb_comm.
Qed.

Lemma truthy_nil s : truthy s = false <-> s = [].
Proof. destruct s; simpl; split; congruence. Qed.

(** [s.trim()] is truthy exactly when [s] has a code unit that is not
    white space. *)
Lemma truthy_trim s : truthy (trim s) = negb (isBlank s).
Proof.
  unfold isBlank.
  destruct (forallb isWhiteSpace s) eqn:E; simpl.
  - apply truthy_nil. unfold trim, trimEnd, trimStart.
    apply (proj2 (dropWhile_nil _ _)) in E. rewrite E. reflexivity.
  - destruct (truthy (trim s)) eqn:T; [reflexivity|].
    apply truthy_nil in T. unfold trim, trimEnd, trimStart in T.
    apply (f_equal (@rev codeunit)) in T. rewrite rev_involutive in T.
    simpl in T. apply dropWhile_nil in T.
    rewrite forallb_rev_eq, forallb_dropWhile in T. congruence.
Qed.

End StringFacts.

(* ================================================================== *)
(** * The prompt composer *)
(* ================================================================== *)

Section PromptFacts.

Variable d : jsstring.
Variables i t n : bool.

Lemma buildPrompt_shape :
  buildPrompt d i t n
  = preambleBeforeDate ++ d ++ betweenDates i t n ++ d
    ++ instructionsAfterDate.
Proof.
  unfold buildPrompt, betweenDates, inventory.
  destruct i, t, n; cbv zeta; rewrite <- ?app_assoc; reflexivity.
Qed.



(** A string that the date does not contain, and that the fixed text
    keeps clear of, does not occur in the prompt. *)
Lemma buildPrompt_absent (needle : jsstring) :
  includes d needle = false ->
  fixedTextClear needle i t n = true ->
  includes (buildPrompt d i t n) needle = false.
Proof.
  intros Hd Hfix. unfold fixedTextClear in Hfix. cbv zeta in Hfix.
  repeat (apply andb_prop in Hfix; destruct Hfix as [Hfix ?]).
  repeat match goal with
         | H : negb _ = true |- _ => apply negb_true_iff in H
         | H : (_ <=? _) = true |- _ => apply Nat.leb_le in H
         end.
  rewrite buildPrompt_shape.
  apply absent_app; [assumption | | left; assumption].
  apply absent_app; [assumption | |].
  - apply absent_app; [assumption | | left; assumption].
    apply absent_app; [assumption | assumption | right; assumption].
  - right. apply headFree_app; assumption.
Qed.

(** The end of the prompt is fixed text as well. *)
Lemma buildPrompt_tailFree (needle : jsstring) :
  fixedTextClear needle i t n = true ->
  tailFree (buildPrompt d i t n) needle = true.
Proof.
  intros Hfix. unfold fixedTextClear in Hfix. cbv zeta in Hfix.
  repeat (apply andb_prop in Hfix; destruct Hfix as [Hfix ?]).
  rewrite buildPrompt_shape, !app_assoc.
  apply tailFree_app; [apply Nat.leb_le|]; assumption.
Qed.

End PromptFacts.

Lemma isIsoDate_chars d :
  isIsoDate d = true -> forallb (fun c => isDigit c || isHyphen c) d = true.
Proof.
  intros H. unfold isIsoDate in H.
  do 11 (destruct d as [|? d]; try discriminate).
  simpl in H.
  repeat match goal with
         | H : _ && _ = true |- _ => apply andb_prop in H; destruct H
         end.
  simpl.
  repeat match goal with
         | H : _ = true |- _ => rewrite H; clear H
         end.
  rewrite !orb_true_r. reflexivity.
Qed.

(** An ISO date contains no string that has a code unit other than a digit
    or a hyphen. *)
Lemma isIsoDate_absent d needle :
  isIsoDate d = true ->
  forallb (fun c => isDigit c || isHyphen c) needle = false ->
  includes d needle = false.
Proof.
  intros Hd Hn. destruct (includes d needle) eqn:E; [|reflexivity].
  rewrite (includes_forallb _ _ _ E (isIsoDate_chars _ Hd)) in Hn.
  discriminate.
Qed.

Lemma inventory_bullets i t n :
  includes (inventory i t n) imageBullet = i
  /\ includes (inventory i t n) textBullet = t
  /\ includes (inventory i t n) narrationBullet = n.
Proof. destruct i, t, n; vm_compute; repeat split. Qed.

(** The bullet of a flag that is set occurs in the prompt, whatever the
    date; the bullet of a flag that is not set does not, unless the date
    itself contains it. *)
Lemma buildPrompt_bullet_present d i t n bullet :
  includes (inventory i t n) bullet = true ->
  includes (buildPrompt d i t n) bullet = true.
Proof.
  intros H. rewrite buildPrompt_shape. unfold betweenDates.
  apply includes_app_r, includes_app_r, includes_app_l, includes_app_r,
    includes_app_l, H.
Qed.

Lemma buildPrompt_bullet_absent d i t n :
  (i = false -> includes d imageBullet = false ->
   includes (buildPrompt d i t n) imageBullet = false)
  /\ (t = false -> includes d textBullet = false ->
      includes (buildPrompt d i t n) textBullet = false)
  /\ (n = false -> includes d narrationBullet = false ->
      includes (buildPrompt d i t n) narrationBullet = false).
Proof.
  repeat split; intros -> Hd; apply buildPrompt_absent; try exact Hd;
    repeat match goal with
           | b : bool |- _ => destruct b
           end;
    vm_compute; reflexivity.
Qed.





(* ================================================================== *)
(** * The request orchestrator *)
(* ================================================================== *)

Lemma fixedTextClear_headers i t n :
  fixedTextClear calendarHeader i t n = true
  /\ fixedTextClear narrationHeader i t n = true.
Proof. destruct i, t, n; vm_compute; split; reflexivity. Qed.

Lemma combinedText_shape p :
  combinedText p
  = promptText p
    ++ (if truthy (trim (calendarText p))
        then calendarTextDelimiter ++ calendarText p else [])
    ++ (if truthy (trim (narration p))
        then narrationDelimiter ++ narration p else []).
Proof.
  unfold combinedText, promptText. cbv zeta.
  destruct (truthy (trim (calendarText p))),
    (truthy (trim (narration p)));
    rewrite <- ?app_assoc, ?app_nil_r; reflexivity.
Qed.

(** A section's content after its delimiter contains its header. *)
Lemma section_has_header (delimiter header body : jsstring) :
  includes delimiter header = true ->
  includes (delimiter ++ body) header = true.
Proof. apply includes_app_l. Qed.

(** A header does not occur in the section of the other input unless that
    input contains it. *)
Lemma other_section_absent (delimiter header body : jsstring) :
  includes delimiter header = false ->
  tailFree delimiter header = true ->
  includes body header = false ->
  includes (delimiter ++ body) header = false.
Proof. intros Hd Ht Hb. apply absent_app; [assumption | assumption | left; assumption]. Qed.

Lemma promptText_absent p header :
  (forall i t n, fixedTextClear header i t n = true) ->
  includes (startDate p) header = false ->
  includes (promptText p) header = false
  /\ tailFree (promptText p) header = true.
Proof.
  intros Hfix Hd. unfold promptText. split.
  - apply buildPrompt_absent; [exact Hd | apply Hfix].
  - apply buildPrompt_tailFree, Hfix.
Qed.

(** C4, as amended. The text part is the composed instruction followed by
    the calendar section when [calendarText] is not blank and then by the
    narration section when [narration] is not blank, each made of its
    delimiter and the input verbatim. Each section is there exactly when
    its input is not blank provided that neither the date nor the other
    input contains the header of that section. *)
Theorem combinedText_sections (p : GenerateTimesheetParams) :
  let body := combinedText p in
  body
  = buildPrompt (startDate p) (present (imageFile p))
      (negb (isBlank (calendarText p))) (negb (isBlank (narration p)))
    ++ (if isBlank (calendarText p) then []
        else calendarTextDelimiter ++ calendarText p)
    ++ (if isBlank (narration p) then []
        else narrationDelimiter ++ narration p)
  /\ (isBlank (calendarText p) = false ->
   includes body (calendarTextDelimiter ++ calendarText p) = true)
  /\ (isBlank (narration p) = false ->
      includes body (narrationDelimiter ++ narration p) = true)
  /\ (isBlank (calendarText p) = false -> isBlank (narration p) = false ->
      body = promptText p
             ++ (calendarTextDelimiter ++ calendarText p)
             ++ (narrationDelimiter ++ narration p))
  /\ (isBlank (calendarText p) = true -> isBlank (narration p) = true ->
      body = promptText p)
  /\ (includes (startDate p) calendarHeader = false ->
      includes (narration p) calendarHeader = false ->
      (hasCalendarSection body = true <-> isBlank (calendarText p) = false))
  /\ (includes (startDate p) narrationHeader = false ->
      includes (calendarText p) narrationHeader = false ->
      (hasNarrationSection body = true <-> isBlank (narration p) = false)).
Proof.
  intros body. subst body. rewrite combinedText_shape, !truthy_trim.
  unfold hasCalendarSection, hasNarrationSection.
  refine (conj _ (conj _ (conj _ (conj _ (conj _ (conj _ _))))));
    [ | | | | | intros Hd Ho; split | intros Hd Ho; split ].
  - unfold promptText. rewrite !truthy_trim.
    destruct (isBlank (calendarText p)), (isBlank (narration p));
      reflexivity.
  - intros ->. simpl negb. cbv iota.
    apply includes_app_r, includes_app_l, startsWith_includes,
      startsWith_refl.
  - intros ->. simpl negb. cbv iota.
    apply includes_app_r, includes_app_r, startsWith_includes,
      startsWith_refl.
  - intros -> ->. reflexivity.
  - intros -> ->. simpl negb. cbv iota. rewrite !app_nil_r. reflexivity.
  - intros H. destruct (isBlank (calendarText p)); [|reflexivity].
    exfalso. simpl negb in H. cbv iota in H. rewrite app_nil_l in H.
    destruct (promptText_absent p calendarHeader
                (fun i t n => proj1 (fixedTextClear_headers i t n)) Hd)
      as [Hp Ht].
    rewrite absent_app in H; [discriminate | exact Hp | | left; exact Ht].
    destruct (negb (isBlank (narration p))); [|reflexivity].
    apply other_section_absent;
      [vm_compute; reflexivity | vm_compute; reflexivity | exact Ho].
  - intros ->. simpl negb. cbv iota.
    apply includes_app_r, includes_app_l, section_has_header.
    vm_compute. reflexivity.
  - intros H. destruct (isBlank (narration p)); [|reflexivity].
    exfalso. simpl negb in H. cbv iota in H. rewrite app_nil_r in H.
    destruct (promptText_absent p narrationHeader
                (fun i t n => proj2 (fixedTextClear_headers i t n)) Hd)
      as [Hp Ht].
    rewrite absent_app in H; [discriminate | exact Hp | | left; exact Ht].
    destruct (negb (isBlank (calendarText p))); [|reflexivity].
    apply other_section_absent;
      [vm_compute; reflexivity | vm_compute; reflexivity | exact Ho].
  - intros ->. simpl negb. cbv iota.
    apply includes_app_r, includes_app_r, section_has_header.
    vm_compute. reflexivity.
Qed.

(** C4, as stated, fails: the text part built for [pastedHeader] has a
    delimited narration section although the narration is blank. *)
Lemma combinedText_sections_counterexample :
  isBlank (narration pastedHeader) = true
  /\ hasNarrationSection (combinedText pastedHeader) = true
  /\ ~ sectionsFollowInputs pastedHeader.
Proof.
  assert (Hs : hasNarrationSection (combinedText pastedHeader) = true)
    by (vm_compute; reflexivity).
  split; [reflexivity | split; [exact Hs|]].
  intros [_ [Hn _]]. specialize (Hn Hs). discriminate Hn.
Qed.

Lemma combinedText_sections_witness :
  (hasCalendarSection (combinedText bothInputs) = true
   <-> isBlank (calendarText bothInputs) = false)
  /\ (hasNarrationSection (combinedText bothInputs) = true
      <-> isBlank (narration bothInputs) = false)
  /\ combinedText bothInputs
     = promptText bothInputs
       ++ (calendarTextDelimiter ++ calendarText bothInputs)
       ++ (narrationDelimiter ++ narration bothInputs).
Proof.
  destruct (combinedText_sections bothInputs)
    as (_ & _ & _ & Hboth & _ & Hc & Hn).
  split; [|split].
  - apply Hc; vm_compute; reflexivity.
  - apply Hn; vm_compute; reflexivity.
  - apply Hboth; vm_compute; reflexivity.
Defined.

Section OrchestratorFacts.

Variable fileToBase64 : File -> Settled jsstring.
Variable generateContent :
  jsstring -> list Part -> Settled GenerateContentResponse.

Lemma errorPrefix_marker message :
  startsWith (errorPrefix ++ message) errorMarker = true.
Proof. apply startsWith_weaken. vm_compute. reflexivity. Qed.

(** C1. When the generation call made with the assembled parts throws
    an [Error], the orchestrator returns the string made of the fixed
    text that starts with the marker [Error:] followed by the message of
    the error: it starts with the marker and contains the message. *)
Theorem generateTimesheet_error (p : GenerateTimesheetParams)
    (parts : list Part) (message : jsstring) :
  requestParts fileToBase64 p = Fulfilled parts ->
  generateContent model parts = Rejected (ThrownError message) ->
  exists result,
    generateTimesheet fileToBase64 generateContent p = Fulfilled result
    /\ result = errorPrefix ++ message
    /\ startsWith result errorMarker = true
    /\ includes result message = true.
Proof.
  intros Hparts Hcall. exists (errorPrefix ++ message).
  split; [|split; [reflexivity | split]].
  - unfold generateTimesheet. rewrite Hparts. simpl await.
    rewrite Hcall. reflexivity.
  - apply errorPrefix_marker.
  - apply includes_app_r, startsWith_includes, startsWith_refl.
Qed.

(** C3. When the generation call made with the assembled parts
    succeeds, the orchestrator returns the text of the response as it
    is. *)
Theorem generateTimesheet_success (p : GenerateTimesheetParams)
    (parts : list Part) (response : GenerateContentResponse) :
  requestParts fileToBase64 p = Fulfilled parts ->
  generateContent model parts = Fulfilled response ->
  generateTimesheet fileToBase64 generateContent p
  = Fulfilled (text response).
Proof.
  intros Hparts Hcall. unfold generateTimesheet.
  rewrite Hparts. simpl await. rewrite Hcall. reflexivity.
Qed.

(** C9. When the generation call throws a value that is not an [Error],
    the orchestrator returns the fixed unknown-error string, in which
    nothing of the thrown value appears. *)
Theorem generateTimesheet_unknown_error (p : GenerateTimesheetParams)
    (parts : list Part) (e : thrown) :
  requestParts fileToBase64 p = Fulfilled parts ->
  generateContent model parts = Rejected e ->
  (forall message, e <> ThrownError message) ->
  generateTimesheet fileToBase64 generateContent p = Fulfilled unknownError
  /\ unknownError
     = lit "Error: An unknown error occurred while generating the timesheet.".
Proof.
  intros Hparts Hcall Hne. split; [|reflexivity].
  unfold generateTimesheet. rewrite Hparts. simpl await.
  rewrite Hcall. destruct e; [|reflexivity|reflexivity].
  exfalso. exact (Hne message eq_refl).
Qed.

(** The request is assembled unless the encoding of a supplied image
    fails. *)
Lemma requestParts_fulfilled (p : GenerateTimesheetParams) :
  match imageFile p with
  | None => exists parts, requestParts fileToBase64 p = Fulfilled parts
  | Some f =>
      forall data, fileToBase64 f = Fulfilled data ->
                   exists parts, requestParts fileToBase64 p = Fulfilled parts
  end.
Proof.
  unfold requestParts. destruct (imageFile p) as [f|].
  - intros data ->. eexists. reflexivity.
  - eexists. reflexivity.
Qed.

(** C7. The parts assembled for a request are the inline-data part with
    the MIME type of the image and its encoded content exactly when an
    image is supplied, followed by one text part with the combined text:
    two parts with an image, one without, the text part last. *)
Theorem requestParts_sequence (p : GenerateTimesheetParams)
    (parts : list Part) :
  requestParts fileToBase64 p = Fulfilled parts ->
  match imageFile p with
  | Some f =>
      exists data, fileToBase64 f = Fulfilled data
                   /\ parts = [InlineData (type f) data;
                               Text (combinedText p)]
  | None => parts = [Text (combinedText p)]
  end
  /\ length parts = (if present (imageFile p) then 2 else 1)
  /\ last parts (Text []) = Text (combinedText p).
Proof.
  unfold requestParts. destruct (imageFile p) as [f|]; simpl present.
  - destruct (fileToBase64 f) as [data|e]; simpl await; intros H;
      [|discriminate].
    injection H as <-. split; [|split; reflexivity].
    exists data. split; reflexivity.
  - simpl await. intros H. injection H as <-.
    split; [|split]; reflexivity.
Qed.

End OrchestratorFacts.

Lemma generateTimesheet_error_witness :
  exists result,
    generateTimesheet encodes throwsQuota bothInputs = Fulfilled result
    /\ result = errorPrefix ++ lit "quota exceeded"
    /\ startsWith result errorMarker = true
    /\ includes result (lit "quota exceeded") = true.
Proof.
  apply (generateTimesheet_error encodes throwsQuota bothInputs
           [Text (combinedText bothInputs)] (lit "quota exceeded"));
    reflexivity.
Defined.

Lemma generateTimesheet_success_witness :
  generateTimesheet encodes (respondsWith (lit "## Monday")) withImage
  = Fulfilled (lit "## Monday").
Proof.
  apply (generateTimesheet_success encodes (respondsWith (lit "## Monday"))
           withImage
           [InlineData (lit "image/png") (lit "iVBORw0KGgo=");
            Text (combinedText withImage)]
           (mkResponse (lit "## Monday")));
    reflexivity.
Defined.

Lemma generateTimesheet_unknown_error_witness :
  generateTimesheet encodes throwsString bothInputs = Fulfilled unknownError
  /\ unknownError
     = lit "Error: An unknown error occurred while generating the timesheet.".
Proof.
  apply (generateTimesheet_unknown_error encodes throwsString bothInputs
           [Text (combinedText bothInputs)] (ThrownObject None));
    [reflexivity | reflexivity | intros message; discriminate].
Defined.

Lemma requestParts_sequence_witness :
  (exists data,
     encodes screenshot = Fulfilled data
     /\ [InlineData (lit "image/png") (lit "iVBORw0KGgo=");
         Text (combinedText withImage)]
        = [InlineData (type screenshot) data; Text (combinedText withImage)])
  /\ length [InlineData (lit "image/png") (lit "iVBORw0KGgo=");
             Text (combinedText withImage)] = 2
  /\ last [InlineData (lit "image/png") (lit "iVBORw0KGgo=");
           Text (combinedText withImage)] (Text [])
     = Text (combinedText withImage).
Proof.
  apply (requestParts_sequence encodes withImage
           [InlineData (lit "image/png") (lit "iVBORw0KGgo=");
            Text (combinedText withImage)]).
  reflexivity.
Defined.

(* ================================================================== *)
(** * The form: validity, submission and export *)
(* ================================================================== *)

Lemma isFormValid_eq st :
  isFormValid st
  = (negb (isBlank (appNarration st)) || negb (isBlank (appCalendarText st))
     || present (screenshotFile st))
    && truthy (weekStartDate st).
Proof. unfold isFormValid. rewrite !truthy_trim. reflexivity. Qed.

(** An invalid form is answered with the validation message whatever the
    two external functions are: none of them is called. *)
Lemma handleSubmit_invalid fileToBase64 generateContent st :
  isFormValid st = false ->
  handleSubmit fileToBase64 generateContent st
  = (setError (Some validationMessage) st, Returns).
Proof. intros H. unfold handleSubmit. rewrite H. reflexivity. Qed.

(** An ISO date is not blank: of the values of a date input, only the
    empty one is. *)
Lemma isIsoDate_not_blank d : isIsoDate d = true -> isBlank d = false.
Proof.
  intros H. unfold isIsoDate in H.
  destruct d as [|y d]; [discriminate|].
  do 10 (destruct d as [|? d]; try discriminate).
  simpl in H. unfold isDigit in H.
  destruct ((48 <=? y)%N && (y <=? 57)%N) eqn:E; [|discriminate].
  apply andb_prop in E. destruct E as [E1 E2].
  apply N.leb_le in E1. apply N.leb_le in E2.
  unfold isBlank. simpl. apply andb_false_intro1.
  unfold isWhiteSpace.
  repeat match goal with
         | |- (_ || _) = false => apply orb_false_intro
         | |- (_ && _) = false =>
             (apply andb_false_intro1; apply N.leb_gt; lia)
             || (apply andb_false_intro2; apply N.leb_gt; lia)
         | |- (_ =? _)%N = false => apply N.eqb_neq; lia
         end.
Qed.

(** C5. A form with no image and blank calendar text and narration is
    invalid whatever the date; a form whose date is not set is invalid
    whatever the other fields (the code tests that the date is not the
    empty string, which among the values of a date input, empty or of the
    ISO form, is the only blank one); a form with an image or a non-blank
    calendar text or narration and a date that is set is valid; and the
    submission of an invalid form ends before any external call. *)
Theorem isFormValid_cases (st : AppState) :
  (screenshotFile st = None ->
   isBlank (appCalendarText st) = true ->
   isBlank (appNarration st) = true ->
   isFormValid st = false)
  /\ (weekStartDate st = [] -> isFormValid st = false)
  /\ (weekStartDate st = [] \/ isIsoDate (weekStartDate st) = true ->
      isBlank (weekStartDate st) = true ->
      isFormValid st = false)
  /\ (screenshotFile st <> None
      \/ isBlank (appCalendarText st) = false
      \/ isBlank (appNarration st) = false ->
      weekStartDate st <> [] ->
      isFormValid st = true)
  /\ (isFormValid st = false ->
      forall fileToBase64 generateContent,
        handleSubmit fileToBase64 generateContent st
        = (setError (Some validationMessage) st, Returns)).
Proof.
  rewrite isFormValid_eq.
  refine (conj _ (conj _ (conj _ (conj _ _)))).
  - intros -> -> ->. reflexivity.
  - intros ->. apply andb_false_r.
  - intros [-> | Hiso] Hblank; [apply andb_false_r|].
    rewrite (isIsoDate_not_blank _ Hiso) in Hblank. discriminate.
  - intros Hany Hdate.
    assert (Hd : truthy (weekStartDate st) = true)
      by (destruct (weekStartDate st); [congruence | reflexivity]).
    rewrite Hd, andb_true_r.
    destruct Hany as [Hi | [Hc | Hn]].
    + destruct (screenshotFile st); [|congruence].
      simpl. apply orb_true_r.
    + rewrite Hc. simpl. destruct (negb _); reflexivity.
    + rewrite Hn. reflexivity.
  - intros H f g. apply handleSubmit_invalid.
    rewrite isFormValid_eq. exact H.
Qed.

(** C8. When there is a timesheet to export, the export action downloads
    it under the name [timesheet-for-week-commencing-<startDate>.md]; for
    the date [2024-03-04] the name is
    [timesheet-for-week-commencing-2024-03-04.md]. *)
Theorem handleDownload_filename (st : AppState) :
  truthy (generatedTimesheet st) = true ->
  exists d,
    handleDownload st = Some d
    /\ downloadContent d = generatedTimesheet st
    /\ filename d
       = lit "timesheet-for-week-commencing-" ++ weekStartDate st
         ++ lit ".md"
    /\ (weekStartDate st = lit "2024-03-04" ->
        filename d = lit "timesheet-for-week-commencing-2024-03-04.md").
Proof.
  intros H. unfold handleDownload. rewrite H. simpl negb. cbv iota zeta.
  eexists. split; [reflexivity|]. simpl.
  split; [reflexivity | split; [reflexivity|]].
  intros ->. reflexivity.
Qed.

Lemma startsWith_marker_truthy result :
  startsWith result errorMarker = true -> truthy result = true.
Proof.
  intros H. destruct (startsWith_inv _ _ H) as [t ->]. reflexivity.
Qed.

Section HandlerFacts.

Variable fileToBase64 : File -> Settled jsstring.
Variable generateContent :
jsstring -> list Part -> Settled GenerateContentResponse.

(** C2. A string returned by the orchestrator is taken for a failure
  exactly when it starts with the marker [Error:]: it then becomes the
  error message, and the stored timesheet stays empty and is not
  rendered; any other string becomes the stored timesheet. *)
Theorem handleSubmit_classifies (st : AppState) (result : jsstring) :
isFormValid st = true ->
generateTimesheet fileToBase64 generateContent (submission st)
= Fulfilled result ->
let st' := fst (handleSubmit fileToBase64 generateContent st) in
(error st' = Some result <-> startsWith result errorMarker = true)
/\ (startsWith result errorMarker = true ->
    generatedTimesheet st' = [] /\ showsTimesheet st' = false
    /\ showsError st' = true)
/\ (startsWith result errorMarker = false ->
    generatedTimesheet st' = result /\ error st' = None).
Proof.
intros Hvalid Hres st'. subst st'.
unfold handleSubmit. rewrite Hvalid, Hres. simpl negb. cbv iota zeta.
unfold onResult.
destruct (startsWith result errorMarker) eqn:E; simpl.
- unfold showsError. simpl. rewrite (startsWith_marker_truthy _ E).
  repeat split; congruence.
- repeat split; congruence.
Qed.

(** C10. A valid submission empties the stored timesheet before the
  generation call, and it is still empty after a submission that fails,
  by a thrown exception or by a result that starts with the marker. *)
Theorem handleSubmit_clears (st : AppState) :
isFormValid st = true ->
let outcome :=
  generateTimesheet fileToBase64 generateContent (submission st) in
let st' := fst (handleSubmit fileToBase64 generateContent st) in
generatedTimesheet (beforeCall st) = []
/\ (forall e, outcome = Rejected e -> generatedTimesheet st' = [])
/\ (forall result,
      outcome = Fulfilled result ->
      startsWith result errorMarker = true ->
      generatedTimesheet st' = []).
Proof.
intros Hvalid outcome st'. subst outcome st'.
unfold handleSubmit. rewrite Hvalid. simpl negb. cbv iota zeta.
split; [reflexivity | split].
- intros e ->. destruct e; reflexivity.
- intros result -> E. unfold onResult. rewrite E. reflexivity.
Qed.

End HandlerFacts.

(** A submission whose image cannot be encoded: the promise of the
    orchestrator rejects, the [catch] block of [handleSubmit] shows the
    message, and the timesheet of the earlier submission is gone. *)
Example handleSubmit_encoding_fails :
  let st := mkApp (Some screenshot) [] [] (lit "2024-03-04")
                  (lit "## Monday") false None in
  let st' :=
    fst (handleSubmit encodingFails (respondsWith (lit "## Monday")) st) in
  error st' = Some (lit "The file could not be read")
  /\ generatedTimesheet st' = []
  /\ isLoading st' = false.
Proof. vm_compute. split; [reflexivity | split; reflexivity]. Qed.

Lemma isFormValid_cases_witness :
  isFormValid narratedForm = true
  /\ isFormValid (mkApp (Some screenshot) [] [] [] [] false None) = false.
Proof.
  destruct (isFormValid_cases narratedForm) as (_ & _ & _ & Hvalid & _).
  destruct (isFormValid_cases (mkApp (Some screenshot) [] [] [] [] false None))
    as (_ & _ & Hdate & _).
  split.
  - apply Hvalid; [right; right; reflexivity | discriminate].
  - apply Hdate; [left|]; reflexivity.
Defined.

Lemma handleDownload_filename_witness :
  exists d,
    handleDownload narratedForm = Some d
    /\ filename d = lit "timesheet-for-week-commencing-2024-03-04.md".
Proof.
  destruct (handleDownload_filename narratedForm eq_refl)
    as (d & Hd & _ & _ & Hname).
  exists d. split; [exact Hd | apply Hname; reflexivity].
Defined.

Lemma handleSubmit_classifies_witness :
  let st' :=
    fst (handleSubmit encodes (respondsWith markdownWithMarker) narratedForm)
  in
  error st' = Some markdownWithMarker
  /\ generatedTimesheet st' = []
  /\ showsTimesheet st' = false.
Proof.
  destruct (handleSubmit_classifies encodes (respondsWith markdownWithMarker)
              narratedForm markdownWithMarker eq_refl eq_refl)
    as (Herr & Hfail & _).
  assert (Hm : startsWith markdownWithMarker errorMarker = true)
    by reflexivity.
  destruct (Hfail Hm) as (Hgen & Hshow & _).
  split; [apply Herr; exact Hm | split; assumption].
Defined.

Lemma handleSubmit_clears_witness :
  generatedTimesheet narratedForm = lit "## Monday"
  /\ generatedTimesheet (fst (handleSubmit encodes throwsQuota narratedForm))
     = [].
Proof.
  split; [reflexivity|].
  destruct (handleSubmit_clears encodes throwsQuota narratedForm eq_refl)
    as (_ & _ & Hmarked).
  apply (Hmarked (errorPrefix ++ lit "quota exceeded")); reflexivity.
Defined.

(* ================================================================== *)
(** * More on trimming *)
(* ================================================================== *)

Lemma dropWhile_idem f s : dropWhile f (dropWhile f s) = dropWhile f s.
Proof.
  induction s as [|c s IH]; simpl; [reflexivity|].
  destruct (f c) eqn:E; [exact IH|]. simpl. rewrite E. reflexivity.
Qed.

Lemma dropWhile_head f s c t : dropWhile f s = c :: t -> f c = false.
Proof.
  induction s as [|x s IH]; simpl; [discriminate|].
  destruct (f x) eqn:E; [exact IH|]. intros H. injection H as -> _. exact E.
Qed.

Lemma dropWhile_snoc f l c :
  f c = false -> exists u, dropWhile f (l ++ [c]) = u ++ [c].
Proof.
  intros Hc. induction l as [|x l IH]; simpl.
  - rewrite Hc. exists []. reflexivity.
  - destruct (f x); [exact IH|]. exists (x :: l). reflexivity.
Qed.

(** A trimmed string does not start with white space. *)
Lemma trimStart_trim s : trimStart (trim s) = trim s.
Proof.
  unfold trim, trimEnd, trimStart.
  destruct (dropWhile isWhiteSpace s) as [|c t] eqn:E; [reflexivity|].
  pose proof (dropWhile_head _ _ _ _ E) as Hc.
  simpl rev. destruct (dropWhile_snoc isWhiteSpace (rev t) c Hc) as [u ->].
  rewrite rev_app_distr. simpl. rewrite Hc. reflexivity.
Qed.

(** Trimming twice is trimming once. *)
Lemma trim_idem s : trim (trim s) = trim s.
Proof.
  unfold trim at 1. rewrite trimStart_trim.
  unfold trim, trimEnd. rewrite rev_involutive, dropWhile_idem. reflexivity.
Qed.

(* ================================================================== *)
(** * The fallback of the Markdown renderer *)
(* ================================================================== *)

Section EscapeFacts.

Import MarkdownRenderer.

Lemma replaceAll_app c r a b :
  replaceAll c r (a ++ b) = replaceAll c r a ++ replaceAll c r b.
Proof. apply flat_map_app. Qed.

(** The two passes amount to one pass that maps each code unit. *)
Lemma escaped_units content : escaped content = flat_map escapedUnit content.
Proof.
  unfold escaped. induction content as [|c s IH]; [reflexivity|].
  change (replaceAll lessThan (lit "&lt;") (c :: s))
    with ((if (c =? lessThan)%N then lit "&lt;" else [c])
          ++ replaceAll lessThan (lit "&lt;") s).
  rewrite replaceAll_app, IH. simpl flat_map. f_equal.
  unfold escapedUnit. destruct (c =? lessThan)%N; [reflexivity|].
  unfold replaceAll. simpl. rewrite app_nil_r. reflexivity.
Qed.

Lemma escaped_app a b : escaped (a ++ b) = escaped a ++ escaped b.
Proof. rewrite !escaped_units. apply flat_map_app. Qed.

Lemma escapedUnit_no_angle c : existsb isAngle (escapedUnit c) = false.
Proof.
  unfold escapedUnit.
  destruct (c =? lessThan)%N eqn:E1; [reflexivity|].
  destruct (c =? greaterThan)%N eqn:E2; [reflexivity|].
  simpl. unfold isAngle. rewrite E1, E2. reflexivity.
Qed.

Lemma escaped_no_angle content : existsb isAngle (escaped content) = false.
Proof.
  rewrite escaped_units.
  induction content as [|c s IH]; [reflexivity|].
  simpl. rewrite existsb_app, escapedUnit_no_angle, IH. reflexivity.
Qed.

Lemma escaped_plain content :
  existsb isAngle content = false -> escaped content = content.
Proof.
  rewrite escaped_units.
  induction content as [|c s IH]; [reflexivity|].
  simpl. intros H. apply orb_false_elim in H. destruct H as [Hc Hs].
  rewrite (IH Hs). unfold escapedUnit. unfold isAngle in Hc.
  apply orb_false_elim in Hc. destruct Hc as [-> ->]. reflexivity.
Qed.

Lemma escaped_length content :
  length (escaped content)
  = length content + 3 * length (filter isAngle content).
Proof.
  rewrite escaped_units.
  induction content as [|c s IH]; [reflexivity|].
  simpl flat_map. rewrite length_app, IH. simpl filter.
  unfold escapedUnit, isAngle.
  destruct (c =? lessThan)%N; [simpl; lia|].
  destruct (c =? greaterThan)%N; simpl; lia.
Qed.

(** X2. Without one of the two libraries the renderer gives the content
    between [<pre>] and [</pre>] with no angle bracket left in it: no
    markup of the content reaches the page. *)
Theorem sanitizedHtml_fallback (w : Window) (content : jsstring) :
  markedParse w = None \/ sanitize w = None ->
  sanitizedHtml w content = lit "<pre>" ++ escaped content ++ lit "</pre>"
  /\ existsb isAngle (escaped content) = false.
Proof.
  intros H. split; [|apply escaped_no_angle].
  unfold sanitizedHtml.
  destruct H as [-> | ->]; [reflexivity|].
  destruct (markedParse w); reflexivity.
Qed.

(** X3. The fallback changes nothing but the angle brackets: a content
    without any is left as it is, each bracket grows into an entity of
    four code units, and the escaping of a concatenation is the
    concatenation of the escapings. *)
Theorem escaped_only_angles (a b : jsstring) :
  (existsb isAngle a = false -> escaped a = a)
  /\ length (escaped a) = length a + 3 * length (filter isAngle a)
  /\ escaped (a ++ b) = escaped a ++ escaped b
  /\ escaped (escaped a) = escaped a.
Proof.
  split; [apply escaped_plain|].
  split; [apply escaped_length|].
  split; [apply escaped_app|].
  apply escaped_plain, escaped_no_angle.
Qed.

(** X4. The ampersand is not escaped, so the fallback cannot be undone:
    a bracket and the entity written out for it give the same output,
    wherever they stand. *)
Theorem escaped_entity_collision (a b : jsstring) :
  escaped (a ++ [lessThan] ++ b) = escaped (a ++ lit "&lt;" ++ b)
  /\ escaped (a ++ [greaterThan] ++ b) = escaped (a ++ lit "&gt;" ++ b)
  /\ a ++ [lessThan] ++ b <> a ++ lit "&lt;" ++ b
  /\ a ++ [greaterThan] ++ b <> a ++ lit "&gt;" ++ b.
Proof.
  rewrite !escaped_app.
  split; [reflexivity | split; [reflexivity|]].
  split; intros H; apply app_inv_head in H; discriminate H.
Qed.

End EscapeFacts.

Lemma sanitizedHtml_fallback_witness :
  MarkdownRenderer.sanitizedHtml
    (MarkdownRenderer.mkWindow (Some (fun s => s)) None)
    (lit "<script>alert(1)</script>")
  = lit "<pre>&lt;script&gt;alert(1)&lt;/script&gt;</pre>".
Proof.
  destruct (sanitizedHtml_fallback
              (MarkdownRenderer.mkWindow (Some (fun s => s)) None)
              (lit "<script>alert(1)</script>") (or_intror eq_refl))
    as [H _].
  rewrite H. reflexivity.
Defined.

Lemma escaped_only_angles_witness :
  MarkdownRenderer.escaped (lit "## Monday") = lit "## Monday".
Proof.
  destruct (escaped_only_angles (lit "## Monday") []) as [Hplain _].
  apply Hplain. reflexivity.
Defined.

(* ================================================================== *)
(** * More on the orchestrator and on submissions *)
(* ================================================================== *)

Section SubmissionFacts.

Variable fileToBase64 : File -> Settled jsstring.
Variable generateContent :
  jsstring -> list Part -> Settled GenerateContentResponse.

(** Whatever the generation call does, the orchestrator turns it into a
    string. *)
Lemma generateTimesheet_after_parts p parts :
  requestParts fileToBase64 p = Fulfilled parts ->
  exists s, generateTimesheet fileToBase64 generateContent p = Fulfilled s
            /\ (forall e, generateContent model parts = Rejected e ->
                          startsWith s errorMarker = true).
Proof.
  intros Hparts. unfold generateTimesheet. rewrite Hparts. simpl await.
  destruct (generateContent model parts) as [response | e].
  - eexists. split; [reflexivity|]. intros e H. discriminate H.
  - destruct e; eexists; (split; [reflexivity|]); intros _ _;
      try apply errorPrefix_marker; vm_compute; reflexivity.
Qed.

(** X5. The promise of the orchestrator rejects exactly when the encoding
    of a supplied image does, with the same value and whatever the
    generation service would do: with no image, or with an image whose
    encoding is fulfilled, it does not reject. *)
Theorem generateTimesheet_rejects_only_encoding
    (p : GenerateTimesheetParams) :
  (forall e,
     generateTimesheet fileToBase64 generateContent p = Rejected e ->
     exists f, imageFile p = Some f /\ fileToBase64 f = Rejected e)
  /\ (forall f e other,
        imageFile p = Some f -> fileToBase64 f = Rejected e ->
        generateTimesheet fileToBase64 other p = Rejected e)
  /\ (imageFile p = None ->
      forall e,
        generateTimesheet fileToBase64 generateContent p <> Rejected e)
  /\ (forall f data,
        imageFile p = Some f -> fileToBase64 f = Fulfilled data ->
        forall e,
          generateTimesheet fileToBase64 generateContent p <> Rejected e).
Proof.
  assert (Honly : forall e,
            generateTimesheet fileToBase64 generateContent p = Rejected e ->
            exists f, imageFile p = Some f /\ fileToBase64 f = Rejected e).
  { intros e H. unfold generateTimesheet, requestParts in H.
    destruct (imageFile p) as [f|].
    - exists f. split; [reflexivity|].
      destruct (fileToBase64 f) as [data | e'].
      + simpl await in H.
        destruct (generateContent model _) as [r | [m | m |]];
          discriminate H.
      + simpl await in H. congruence.
    - simpl await in H.
      destruct (generateContent model _) as [r | [m | m |]];
        discriminate H. }
  refine (conj Honly (conj _ (conj _ _))).
  - intros f e other Hf He. unfold generateTimesheet, requestParts.
    rewrite Hf, He. reflexivity.
  - intros Hnone e H. destruct (Honly e H) as (f & Hf & _). congruence.
  - intros f data Hf Hdata e H.
    destruct (Honly e H) as (f' & Hf' & He). congruence.
Qed.

(** X6. A generation call that fails, however it fails, ends a valid
    submission with an alert whose message starts with the error marker,
    no timesheet, and the loading flag down. *)
Theorem handleSubmit_generation_failure (st : AppState) (parts : list Part)
    (e : thrown) :
  isFormValid st = true ->
  requestParts fileToBase64 (submission st) = Fulfilled parts ->
  generateContent model parts = Rejected e ->
  let st' := fst (handleSubmit fileToBase64 generateContent st) in
  (exists message, error st' = Some message
                   /\ startsWith message errorMarker = true)
  /\ showsError st' = true
  /\ generatedTimesheet st' = []
  /\ isLoading st' = false
  /\ snd (handleSubmit fileToBase64 generateContent st) = Returns.
Proof.
  intros Hvalid Hparts Hcall st'. subst st'.
  destruct (generateTimesheet_after_parts (submission st) parts Hparts)
    as (s & Hs & Hmark).
  specialize (Hmark e Hcall).
  unfold handleSubmit. rewrite Hvalid, Hs. simpl negb. cbv iota zeta.
  unfold onResult. rewrite Hmark. simpl.
  unfold showsError. simpl. rewrite (startsWith_marker_truthy _ Hmark).
  split; [exists s; split; [reflexivity | exact Hmark]|].
  repeat split.
Qed.

Lemma handleSubmit_inputs (st : AppState) :
  let st' := fst (handleSubmit fileToBase64 generateContent st) in
  screenshotFile st' = screenshotFile st
  /\ appCalendarText st' = appCalendarText st
  /\ appNarration st' = appNarration st
  /\ weekStartDate st' = weekStartDate st.
Proof.
  intros st'. subst st'. unfold handleSubmit.
  destruct (isFormValid st); simpl negb; cbv iota zeta.
  - destruct (generateTimesheet _ _ _) as [result | e].
    + unfold onResult. destruct (startsWith result errorMarker);
        simpl; repeat split; congruence.
    + destruct e as [m | [m|] |]; simpl; repeat split; congruence.
  - simpl. repeat split; congruence.
Qed.

(** What a submission through the enabled button leaves in the three
    cells it writes. *)
Lemma handleSubmit_enabled (st : AppState) :
  submitDisabled st = false ->
  let st' := fst (handleSubmit fileToBase64 generateContent st) in
  isLoading st' = false /\ showsError st' && showsTimesheet st' = false.
Proof.
  intros Hen st'. subst st'. unfold submitDisabled in Hen.
  apply orb_false_elim in Hen. destruct Hen as [Hvalid _].
  apply negb_false_iff in Hvalid.
  unfold handleSubmit. rewrite Hvalid. simpl negb. cbv iota zeta.
  destruct (generateTimesheet _ _ _) as [result | e].
  - unfold onResult. destruct (startsWith result errorMarker) eqn:E;
      unfold showsError, showsTimesheet; simpl; split; try reflexivity.
    apply andb_false_r.
  - destruct e as [m | [m|] |]; unfold showsError, showsTimesheet; simpl;
      split; try reflexivity; apply andb_false_r.
Qed.

(** X7. [handleSubmit] leaves the four inputs of the form as they are,
    and a valid submission always ends with the loading flag down, also
    when the [catch] block itself throws. *)
Theorem handleSubmit_frame (st : AppState) :
  let st' := fst (handleSubmit fileToBase64 generateContent st) in
  screenshotFile st' = screenshotFile st
  /\ appCalendarText st' = appCalendarText st
  /\ appNarration st' = appNarration st
  /\ weekStartDate st' = weekStartDate st
  /\ (isFormValid st = true -> isLoading st' = false)
  /\ (isFormValid st = false -> isLoading st' = isLoading st).
Proof.
  intros st'. subst st'.
  destruct (handleSubmit_inputs st) as (H1 & H2 & H3 & H4).
  refine (conj H1 (conj H2 (conj H3 (conj H4 _)))).
  unfold handleSubmit.
  destruct (isFormValid st); simpl negb; cbv iota zeta.
  - split; [intros _ | discriminate].
    destruct (generateTimesheet _ _ _) as [result | e].
    + reflexivity.
    + destruct e as [m | [m|] |]; reflexivity.
  - split; [discriminate | reflexivity].
Qed.

(** X8. After a valid submission the alert and the timesheet are never
    both on display; neither is exactly when the service answered with an
    empty text or the orchestrator rejected with [null] or [undefined]. *)
Theorem handleSubmit_alert_or_timesheet (st : AppState) :
  isFormValid st = true ->
  let outcome :=
    generateTimesheet fileToBase64 generateContent (submission st) in
  let st' := fst (handleSubmit fileToBase64 generateContent st) in
  showsError st' && showsTimesheet st' = false
  /\ (showsError st' || showsTimesheet st' = false
      <-> outcome = Fulfilled [] \/ outcome = Rejected ThrownNullish).
Proof.
  intros Hvalid outcome st'. subst outcome st'.
  unfold handleSubmit. rewrite Hvalid. simpl negb. cbv iota zeta.
  destruct (generateTimesheet _ _ _) as [result | e].
  - unfold onResult. destruct (startsWith result errorMarker) eqn:E.
    + unfold showsError, showsTimesheet. simpl.
      rewrite (startsWith_marker_truthy _ E). simpl.
      split; [reflexivity|]. split; [discriminate|].
      intros [H | H]; [|discriminate H]. injection H as ->. discriminate E.
    + unfold showsError, showsTimesheet. simpl.
      split; [reflexivity|]. destruct result; simpl.
      * split; [left; reflexivity | reflexivity].
      * split; [discriminate|]. intros [H | H]; discriminate H.
  - destruct e as [m | [m|] |]; unfold showsError, showsTimesheet; simpl;
      try (destruct (truthy m) eqn:T; simpl; try rewrite T);
      (split; [try reflexivity; apply andb_false_r|]);
      try (split; [discriminate | intros [H | H]; discriminate H]).
    split; [right; reflexivity | reflexivity].
Qed.

(** X9. Submitting and then exporting: after a valid submission that the
    service answered with a non-empty text that does not start with the
    error marker, the export downloads exactly that text under the name
    made from the week start; after a submission that failed, the export
    does nothing. *)
Theorem handleSubmit_then_download (st : AppState) :
  isFormValid st = true ->
  let outcome :=
    generateTimesheet fileToBase64 generateContent (submission st) in
  let st' := fst (handleSubmit fileToBase64 generateContent st) in
  (forall result,
     outcome = Fulfilled result ->
     result <> [] -> startsWith result errorMarker = false ->
     handleDownload st'
     = Some (mkDownload result
               (lit "timesheet-for-week-commencing-" ++ weekStartDate st
                ++ lit ".md")))
  /\ (forall result,
        outcome = Fulfilled result ->
        startsWith result errorMarker = true ->
        handleDownload st' = None)
  /\ (forall e, outcome = Rejected e -> handleDownload st' = None).
Proof.
  intros Hvalid outcome st'. subst outcome st'.
  unfold handleSubmit. rewrite Hvalid. simpl negb. cbv iota zeta.
  refine (conj _ (conj _ _)).
  - intros result -> Hne Hm. unfold onResult. rewrite Hm.
    unfold handleDownload. simpl.
    destruct result; [congruence | reflexivity].
  - intros result -> Hm. unfold onResult. rewrite Hm. reflexivity.
  - intros e ->. destruct e as [m | [m|] |]; reflexivity.
Qed.

(** X10. For a week start of the ISO form, the inventory of the composed
    instruction tells what the request carries: the screenshot bullet is
    there exactly when the parts hold an inline-data part, the text
    bullet exactly when the calendar text is not blank, the narration
    bullet exactly when the narration is not blank. *)
Theorem promptText_inventory (p : GenerateTimesheetParams)
    (parts : list Part) :
  isIsoDate (startDate p) = true ->
  requestParts fileToBase64 p = Fulfilled parts ->
  (includes (promptText p) imageBullet = true
   <-> exists mimeType data, In (InlineData mimeType data) parts)
  /\ (includes (promptText p) textBullet = true
      <-> isBlank (calendarText p) = false)
  /\ (includes (promptText p) narrationBullet = true
      <-> isBlank (narration p) = false).
Proof.
  intros Hiso Hparts.
  assert (Hb : includes (promptText p) imageBullet = present (imageFile p)
               /\ includes (promptText p) textBullet
                  = negb (isBlank (calendarText p))
               /\ includes (promptText p) narrationBullet
                  = negb (isBlank (narration p))).
  { unfold promptText. rewrite !truthy_trim.
    generalize (present (imageFile p)) (negb (isBlank (calendarText p)))
      (negb (isBlank (narration p))).
    intros i t n.
    destruct (inventory_bullets i t n) as (Hi & Ht & Hn).
    destruct (buildPrompt_bullet_absent (startDate p) i t n)
      as (Ai & At & An).
    assert (Hd : forall bullet,
               forallb (fun c => isDigit c || isHyphen c) bullet = false ->
               includes (startDate p) bullet = false)
      by (intros bullet; apply isIsoDate_absent, Hiso).
    split; [|split].
    - destruct i; [apply buildPrompt_bullet_present, Hi|].
      apply Ai; [reflexivity | apply Hd; vm_compute; reflexivity].
    - destruct t; [apply buildPrompt_bullet_present, Ht|].
      apply At; [reflexivity | apply Hd; vm_compute; reflexivity].
    - destruct n; [apply buildPrompt_bullet_present, Hn|].
      apply An; [reflexivity | apply Hd; vm_compute; reflexivity]. }
  destruct Hb as (-> & -> & ->).
  split; [|split; split; intros H;
            destruct (isBlank _); simpl in *; congruence].
  unfold requestParts in Hparts. destruct (imageFile p) as [f|]; simpl.
  - destruct (fileToBase64 f) as [data|]; simpl await in Hparts;
      [|discriminate]. injection Hparts as <-.
    split; [intros _ | reflexivity].
    exists (type f), data. left. reflexivity.
  - simpl await in Hparts. injection Hparts as <-.
    split; [discriminate|].
    intros (m & data & [H | []]). discriminate H.
Qed.

End SubmissionFacts.

Lemma handleSubmit_generation_failure_witness :
  showsError (fst (handleSubmit encodes throwsString narratedForm)) = true
  /\ generatedTimesheet (fst (handleSubmit encodes throwsString narratedForm))
     = [].
Proof.
  destruct (handleSubmit_generation_failure encodes throwsString narratedForm
              [Text (combinedText (submission narratedForm))]
              (ThrownObject None) eq_refl eq_refl eq_refl)
    as (_ & Hshow & Hgen & _).
  split; assumption.
Defined.

Lemma generateTimesheet_rejects_only_encoding_witness :
  generateTimesheet encodingFails throwsQuota withImage
  = Rejected (ThrownError (lit "The file could not be read")).
Proof.
  destruct (generateTimesheet_rejects_only_encoding encodingFails throwsQuota
              withImage) as (_ & Hrej & _).
  apply (Hrej screenshot); reflexivity.
Defined.

Lemma handleSubmit_frame_witness :
  isLoading (fst (handleSubmit encodingFails throwsQuota narratedForm))
  = false.
Proof.
  destruct (handleSubmit_frame encodingFails throwsQuota narratedForm)
    as (_ & _ & _ & _ & Hload & _).
  apply Hload. reflexivity.
Defined.

Lemma handleSubmit_alert_or_timesheet_witness :
  let st' := fst (handleSubmit encodes (respondsWith []) narratedForm) in
  showsError st' || showsTimesheet st' = false.
Proof.
  destruct (handleSubmit_alert_or_timesheet encodes (respondsWith [])
              narratedForm eq_refl) as (_ & Hnone).
  apply Hnone. left. reflexivity.
Defined.

Lemma handleSubmit_then_download_witness :
  handleDownload
    (fst (handleSubmit encodes (respondsWith (lit "## Monday")) narratedForm))
  = Some (mkDownload (lit "## Monday")
            (lit "timesheet-for-week-commencing-2024-03-04.md")).
Proof.
  destruct (handleSubmit_then_download encodes
              (respondsWith (lit "## Monday")) narratedForm eq_refl)
    as (Hok & _).
  apply (Hok (lit "## Monday")); [reflexivity | discriminate | reflexivity].
Defined.

Lemma promptText_inventory_witness :
  includes (promptText withImage) imageBullet = true
  /\ includes (promptText withImage) textBullet <> true.
Proof.
  destruct (promptText_inventory encodes withImage
              [InlineData (lit "image/png") (lit "iVBORw0KGgo=");
               Text (combinedText withImage)] eq_refl eq_refl)
    as (Hi & Ht & _).
  split.
  - apply Hi. exists (lit "image/png"), (lit "iVBORw0KGgo="). left.
    reflexivity.
  - intros H. apply Ht in H. discriminate H.
Defined.

(* ================================================================== *)
(** * The voice recorder *)
(* ================================================================== *)

Section RecorderFacts.

Import VoiceRecorder.

Lemma collect_finals_interims rs final interim :
  collect rs final interim = (final ++ finals rs, interim ++ interims rs).
Proof.
  revert final interim. induction rs as [|r rs IH]; intros final interim.
  - simpl. unfold finals, interims. simpl. rewrite !app_nil_r. reflexivity.
  - simpl. unfold finals, interims in *. simpl.
    destruct (isFinal r); simpl; rewrite IH, <- ?app_assoc; reflexivity.
Qed.

Lemma onresult_cells event st :
  let rs := skipn (resultIndex event) (results event) in
  finalTranscriptRef (onresult event st) = finalTranscriptRef st ++ finals rs
  /\ transcript (onresult event st)
     = (finalTranscriptRef st ++ finals rs) ++ interims rs
  /\ recordingState (onresult event st) = recordingState st
  /\ error (onresult event st) = error st
  /\ mediaRecorderRef (onresult event st) = mediaRecorderRef st.
Proof.
  intros rs. subst rs. unfold onresult.
  rewrite collect_finals_interims. simpl. repeat split.
Qed.

(** X11. A result event adds to the final transcript exactly its final
    results from [resultIndex] on, in their order and each followed by one
    space; the preview is the final transcript followed by the interim
    results of the event, which are kept nowhere else; an event whose
    [resultIndex] is past its results only resets the preview to the
    final transcript. *)
Theorem onresult_transcripts (event : ResultEvent) (st : State) :
  let rs := skipn (resultIndex event) (results event) in
  finalTranscriptRef (onresult event st) = finalTranscriptRef st ++ finals rs
  /\ transcript (onresult event st)
     = finalTranscriptRef (onresult event st) ++ interims rs
  /\ startsWith (transcript (onresult event st)) (finalTranscriptRef st)
     = true
  /\ (length (results event) <= resultIndex event ->
      finalTranscriptRef (onresult event st) = finalTranscriptRef st
      /\ transcript (onresult event st) = finalTranscriptRef st).
Proof.
  intros rs.
  destruct (onresult_cells event st) as (Hf & Ht & _).
  fold rs in Hf, Ht. rewrite Hf, Ht.
  split; [reflexivity | split; [reflexivity | split]].
  - rewrite <- app_assoc. apply startsWith_app.
  - intros Hlen. subst rs. rewrite skipn_all2 by exact Hlen.
    unfold finals, interims. simpl. rewrite !app_nil_r. split; reflexivity.
Qed.

(** What a run of result events has added to the final transcript. *)
Lemma onresult_run events st :
  let st' := fold_left (fun s e => onresult e s) events st in
  finalTranscriptRef st'
  = finalTranscriptRef st
    ++ flat_map (fun e => finals (skipn (resultIndex e) (results e))) events
  /\ mediaRecorderRef st' = mediaRecorderRef st.
Proof.
  revert st. induction events as [|e events IH]; intros st; simpl.
  - rewrite app_nil_r. split; reflexivity.
  - destruct (IH (onresult e st)) as [Hf Hm].
    destruct (onresult_cells e st) as (Hf1 & _ & _ & _ & Hm1).
    rewrite Hf, Hm, Hf1, Hm1, <- app_assoc. split; reflexivity.
Qed.

(** X12. A whole recording: started with success, fed any result events
    and stopped, the recorder hands over the final results of all the
    events, each followed by a space, trimmed; no interim result is in
    it, and the recorder ends in the state FINISHED. *)
Theorem recording_session (st : State) (events : list ResultEvent) :
  let started := fst (startRecording true Started st) in
  let heard := fold_left (fun s e => onresult e s) events started in
  let '(stopped, calls) := onstop (stopRecording heard) in
  calls
  = [trim (flat_map (fun e => finals (skipn (resultIndex e) (results e)))
             events)]
  /\ recordingState stopped = FINISHED
  /\ mediaRecorderRef stopped = Some inactive
  /\ snd (startRecording true Started st) = [[]].
Proof.
  cbv zeta.
  destruct (onresult_run events (fst (startRecording true Started st)))
    as [Hf Hm].
  set (heard := fold_left _ events _) in *.
  assert (Hstart : finalTranscriptRef (fst (startRecording true Started st))
                   = []
                   /\ mediaRecorderRef (fst (startRecording true Started st))
                      = Some recording)
    by (unfold startRecording, resetState;
        destruct (mediaRecorderRef st) as [[]|]; split; reflexivity).
  destruct Hstart as [Hs1 Hs2]. rewrite Hs1 in Hf. rewrite Hs2 in Hm.
  simpl in Hf.
  unfold onstop, stopRecording, stopRecorder. rewrite Hm. simpl.
  rewrite Hf. repeat split.
Qed.

(** X13. A recording that cannot start. Without speech recognition in the
    browser the recorder is reset and shows the message for it. When the
    [try] block throws, the message about the microphone is set and then
    cleared by the reset that follows in the same handler: the recorder
    is back in its initial state with no error to show. In both cases the
    narration of an earlier recording has been withdrawn. *)
Theorem startRecording_failures (outcome : TryOutcome) (st : State) :
  startRecording false outcome st
  = (setError (Some unsupportedMessage) initial, [[]])
  /\ startRecording true Threw st = (initial, [[]; []])
  /\ error (fst (startRecording true Threw st)) = None.
Proof.
  unfold startRecording, resetState.
  destruct (mediaRecorderRef st) as [[]|]; repeat split.
Qed.

End RecorderFacts.

Lemma onresult_transcripts_witness :
  VoiceRecorder.transcript
    (VoiceRecorder.onresult
       (VoiceRecorder.mkEvent 2
          [VoiceRecorder.mkResult true (lit "standup");
           VoiceRecorder.mkResult false (lit "revi")])
       (VoiceRecorder.setFinalTranscriptRef (lit "standup ")
          VoiceRecorder.initial))
  = lit "standup ".
Proof.
  destruct (onresult_transcripts
              (VoiceRecorder.mkEvent 2
                 [VoiceRecorder.mkResult true (lit "standup");
                  VoiceRecorder.mkResult false (lit "revi")])
              (VoiceRecorder.setFinalTranscriptRef (lit "standup ")
                 VoiceRecorder.initial)) as (_ & _ & _ & Hpast).
  apply Hpast. simpl. lia.
Defined.

(* ================================================================== *)
(** * What every run of the page keeps *)
(* ================================================================== *)

Lemma selectFiles_cells calls st :
  appCalendarText (selectFiles calls st) = appCalendarText st
  /\ appNarration (selectFiles calls st) = appNarration st
  /\ weekStartDate (selectFiles calls st) = weekStartDate st
  /\ generatedTimesheet (selectFiles calls st) = generatedTimesheet st
  /\ isLoading (selectFiles calls st) = isLoading st
  /\ error (selectFiles calls st) = error st.
Proof.
  revert st. induction calls as [|c calls IH]; intros st; simpl.
  - repeat split.
  - destruct (IH (setScreenshotFile c st)) as (H1 & H2 & H3 & H4 & H5 & H6).
    rewrite H1, H2, H3, H4, H5, H6. repeat split.
Qed.

Lemma completeTranscriptions_cells calls st :
  screenshotFile (completeTranscriptions calls st) = screenshotFile st
  /\ appCalendarText (completeTranscriptions calls st) = appCalendarText st
  /\ weekStartDate (completeTranscriptions calls st) = weekStartDate st
  /\ generatedTimesheet (completeTranscriptions calls st)
     = generatedTimesheet st
  /\ isLoading (completeTranscriptions calls st) = isLoading st
  /\ error (completeTranscriptions calls st) = error st.
Proof.
  revert st. induction calls as [|c calls IH]; intros st; simpl.
  - repeat split.
  - destruct (IH (setNarration c st)) as (H1 & H2 & H3 & H4 & H5 & H6).
    rewrite H1, H2, H3, H4, H5, H6. repeat split.
Qed.

Section PageFacts.

Variable isSpeechRecognitionSupported : bool.
Variable fileToBase64 : File -> Settled jsstring.
Variable generateContent :
  jsstring -> list Part -> Settled GenerateContentResponse.

(** A property of pages that every event keeps holds after every run
    from a page that has it. *)
Lemma run_invariant (P : Page -> Prop) :
  (forall pg e,
     P pg ->
     P (step isSpeechRecognitionSupported fileToBase64 generateContent
          pg e)) ->
  forall events pg,
    P pg ->
    P (run isSpeechRecognitionSupported fileToBase64 generateContent
         pg events).
Proof.
  intros Hstep events. unfold run.
  induction events as [|e events IH]; intros pg Hpg; simpl; [exact Hpg|].
  apply IH, Hstep, Hpg.
Qed.

Lemma step_imageTyped pg e :
  imageTyped (screenshotFile (app pg)) = true ->
  imageTyped
    (screenshotFile
       (app (step isSpeechRecognitionSupported fileToBase64 generateContent
               pg e))) = true.
Proof.
  intros H. destruct e; simpl; try exact H.
  - destruct (FileUpload.showsPreview (upload pg)); [exact H|].
    unfold FileUpload.handleFileChange.
    destruct file as [f|]; [|reflexivity].
    destruct (startsWith (type f) (lit "image/")) eqn:E; [|reflexivity].
    simpl. exact E.
  - destruct (FileUpload.showsPreview (upload pg)); [reflexivity | exact H].
  - destruct (isIdle _); [|exact H].
    destruct (VoiceRecorder.startRecording _ _ _) as [v calls]. simpl.
    rewrite (proj1 (completeTranscriptions_cells calls (app pg))). exact H.
  - destruct (isRecording _); exact H.
  - destruct (isFinished _); exact H.
  - destruct (submitDisabled (app pg)); [exact H|]. simpl.
    rewrite (proj1 (handleSubmit_inputs fileToBase64 generateContent
                      (app pg))).
    exact H.
Qed.

(** X14. Whatever happens on the page, the file of the form is none or
    one whose type starts with [image/]; so the inline-data part of every
    request made from the page carries an image type. *)
Theorem run_selects_images (weekStart : jsstring) (events : list Event) :
  let pg :=
    run isSpeechRecognitionSupported fileToBase64 generateContent
      (initialPage weekStart) events in
  imageTyped (screenshotFile (app pg)) = true
  /\ (forall parts mimeType data,
        requestParts fileToBase64 (submission (app pg)) = Fulfilled parts ->
        In (InlineData mimeType data) parts ->
        startsWith mimeType (lit "image/") = true).
Proof.
  intros pg.
  assert (H : imageTyped (screenshotFile (app pg)) = true).
  { subst pg.
    apply (run_invariant
             (fun pg => imageTyped (screenshotFile (app pg)) = true));
      [apply step_imageTyped | reflexivity]. }
  split; [exact H|].
  intros parts mimeType data Hparts Hin.
  unfold requestParts, submission in Hparts. simpl in Hparts.
  destruct (screenshotFile (app pg)) as [f|].
  - destruct (fileToBase64 f) as [d|]; simpl in Hparts; [|discriminate].
    injection Hparts as <-.
    destruct Hin as [Hin | [Hin | []]]; [|discriminate Hin].
    injection Hin as <- _. exact H.
  - simpl in Hparts. injection Hparts as <-.
    destruct Hin as [Hin | []]. discriminate Hin.
Qed.

Lemma step_narrationSettled pg e :
  narrationSettled pg ->
  narrationSettled
    (step isSpeechRecognitionSupported fileToBase64 generateContent pg e).
Proof.
  intros [Ht Hf]. unfold narrationSettled.
  destruct e; simpl; try (split; assumption).
  - destruct (FileUpload.showsPreview (upload pg)); [split; assumption|].
    destruct (FileUpload.handleFileChange file (upload pg)) as [up calls].
    simpl.
    rewrite (proj1 (proj2 (selectFiles_cells calls (app pg)))).
    split; assumption.
  - destruct (FileUpload.showsPreview (upload pg)); [|split; assumption].
    simpl. split; assumption.
  - destruct (isIdle _); [|split; assumption].
    unfold VoiceRecorder.startRecording, VoiceRecorder.resetState.
    destruct isSpeechRecognitionSupported, outcome,
      (VoiceRecorder.mediaRecorderRef (voice pg)) as [[]|];
      simpl;
      (split; [reflexivity | intros Hne; exfalso; apply Hne; reflexivity]).
  - destruct (isRecording _) eqn:E; [|split; assumption]. simpl.
    split; [exact Ht|]. intros Hne. specialize (Hf Hne).
    rewrite Hf in E. discriminate E.
  - split; [apply trim_idem | reflexivity].
  - destruct (isFinished _); [|split; assumption].
    simpl.
    split; [reflexivity | intros Hne; exfalso; apply Hne; reflexivity].
  - split; [exact Ht|]. intros Hne.
    destruct (onresult_cells event (voice pg)) as (_ & _ & -> & _).
    exact (Hf Hne).
  - split; [exact Ht|]. intros Hne. unfold VoiceRecorder.onerror.
    destruct (list_eq_dec N.eq_dec e VoiceRecorder.noSpeech);
      simpl; exact (Hf Hne).
  - destruct (submitDisabled (app pg)); [split; assumption|]. simpl.
    destruct (handleSubmit_inputs fileToBase64 generateContent (app pg))
      as (_ & _ & -> & _).
    split; assumption.
Qed.

(** X15. Whatever happens on the page, the narration of the form is a
    trimmed string, and it is not empty only while the recorder is in the
    state FINISHED; so the validity of the form does not depend on the
    trimming of the narration. *)
Theorem run_narration_trimmed (weekStart : jsstring) (events : list Event) :
  let pg :=
    run isSpeechRecognitionSupported fileToBase64 generateContent
      (initialPage weekStart) events in
  trim (appNarration (app pg)) = appNarration (app pg)
  /\ (appNarration (app pg) <> [] ->
      VoiceRecorder.recordingState (voice pg) = VoiceRecorder.FINISHED)
  /\ isFormValid (app pg)
     = (truthy (appNarration (app pg))
        || truthy (trim (appCalendarText (app pg)))
        || present (screenshotFile (app pg)))
       && truthy (weekStartDate (app pg)).
Proof.
  intros pg.
  assert (H : narrationSettled pg).
  { subst pg. apply (run_invariant narrationSettled);
      [apply step_narrationSettled|].
    split; [reflexivity | intros H; exfalso; apply H; reflexivity]. }
  destruct H as [Ht Hf].
  split; [exact Ht | split; [exact Hf|]].
  unfold isFormValid. rewrite Ht. reflexivity.
Qed.

Lemma step_alert_or_timesheet pg e :
  isLoading (app pg) = false
  /\ showsError (app pg) && showsTimesheet (app pg) = false ->
  let pg' :=
    step isSpeechRecognitionSupported fileToBase64 generateContent pg e in
  isLoading (app pg') = false
  /\ showsError (app pg') && showsTimesheet (app pg') = false.
Proof.
  intros H pg'. subst pg'. destruct e; simpl; try exact H.
  - destruct (FileUpload.showsPreview (upload pg)); [exact H|].
    destruct (FileUpload.handleFileChange file (upload pg)) as [up calls].
    simpl. unfold showsError, showsTimesheet.
    destruct (selectFiles_cells calls (app pg))
      as (_ & _ & _ & -> & -> & ->).
    exact H.
  - destruct (FileUpload.showsPreview (upload pg)); exact H.
  - destruct (isIdle _); [|exact H].
    destruct (VoiceRecorder.startRecording _ _ _) as [v calls]. simpl.
    unfold showsError, showsTimesheet.
    destruct (completeTranscriptions_cells calls (app pg))
      as (_ & _ & _ & -> & -> & ->).
    exact H.
  - destruct (isRecording _); exact H.
  - destruct (isFinished _); exact H.
  - destruct (submitDisabled (app pg)) eqn:E; [exact H|]. simpl.
    apply handleSubmit_enabled, E.
Qed.

(** X16. Whatever happens on the page, with each submission taken from
    the click on the enabled button to its end, the loading flag is down
    and the alert and the timesheet are never both on display. *)
Theorem run_alert_or_timesheet (weekStart : jsstring)
    (events : list Event) :
  let pg :=
    run isSpeechRecognitionSupported fileToBase64 generateContent
      (initialPage weekStart) events in
  isLoading (app pg) = false
  /\ showsError (app pg) && showsTimesheet (app pg) = false.
Proof.
  intros pg. subst pg.
  apply (run_invariant
           (fun pg => isLoading (app pg) = false
                      /\ showsError (app pg) && showsTimesheet (app pg)
                         = false)).
  - intros pg e H. apply step_alert_or_timesheet, H.
  - split; reflexivity.
Qed.

End PageFacts.

(** X17. Choosing something that is not an image, or nothing, does not
    keep the image chosen before: the file of the form and the preview
    are both cleared, and the form is then valid only by its text or
    narration. *)
Theorem choose_non_image_clears (supported : bool)
    (fileToBase64 : File -> Settled jsstring)
    (generateContent :
       jsstring -> list Part -> Settled GenerateContentResponse)
    (pg : Page) (file : option File) :
  FileUpload.showsPreview (upload pg) = false ->
  match file with
  | Some f => startsWith (type f) (lit "image/") = false
  | None => True
  end ->
  let pg' := step supported fileToBase64 generateContent pg
               (ChooseFile file) in
  screenshotFile (app pg') = None
  /\ FileUpload.imagePreview (upload pg') = None
  /\ isFormValid (app pg')
     = (truthy (trim (appNarration (app pg)))
        || truthy (trim (appCalendarText (app pg))))
       && truthy (weekStartDate (app pg)).
Proof.
  intros Hshow Hfile pg'. subst pg'. simpl. rewrite Hshow.
  unfold FileUpload.handleFileChange.
  destruct file as [f|]; [rewrite Hfile|];
    unfold isFormValid; simpl; rewrite orb_false_r; repeat split.
Qed.

Lemma choose_non_image_clears_witness :
  screenshotFile
    (app (step true encodes throwsQuota
            (step true encodes throwsQuota (initialPage (lit "2024-03-04"))
               (ChooseFile (Some screenshot)))
            (ChooseFile (Some (mkFile (lit "application/pdf") [37; 80]%N)))))
  = None.
Proof.
  apply (choose_non_image_clears true encodes throwsQuota
           (step true encodes throwsQuota (initialPage (lit "2024-03-04"))
              (ChooseFile (Some screenshot)))
           (Some (mkFile (lit "application/pdf") [37; 80]%N)));
    reflexivity.
Defined.

(** X18. A calendar text or a narration that is blank leaves no trace in
    the text part: the request is the one of the same submission with the
    empty string in its place. *)
Theorem combinedText_ignores_blank (p : GenerateTimesheetParams) :
  (isBlank (calendarText p) = true ->
   combinedText p
   = combinedText (mkParams (imageFile p) [] (narration p) (startDate p)))
  /\ (isBlank (narration p) = true ->
      combinedText p
      = combinedText
          (mkParams (imageFile p) (calendarText p) [] (startDate p))).
Proof.
  rewrite !combinedText_shape. unfold promptText.
  cbn [imageFile calendarText narration startDate].
  rewrite !truthy_trim.
  split; intros ->; reflexivity.
Qed.

Lemma combinedText_ignores_blank_witness :
  combinedText (mkParams None (lit "  ") (lit "review") (lit "2024-03-04"))
  = combinedText (mkParams None [] (lit "review") (lit "2024-03-04")).
Proof.
  apply (combinedText_ignores_blank
           (mkParams None (lit "  ") (lit "review") (lit "2024-03-04"))).
  reflexivity.
Defined.

Lemma run_selects_images_witness :
  startsWith (lit "image/png") (lit "image/") = true.
Proof.
  destruct (run_selects_images true encodes throwsQuota (lit "2024-03-04")
              [ChooseFile (Some screenshot)]) as [_ H].
  apply (H [InlineData (lit "image/png") (lit "iVBORw0KGgo=");
            Text (combinedText
                    (mkParams (Some screenshot) [] [] (lit "2024-03-04")))]
           (lit "image/png") (lit "iVBORw0KGgo=")).
  - reflexivity.
  - left. reflexivity.
Defined.

Lemma run_narration_trimmed_witness :
  let pg :=
    run true encodes throwsQuota (initialPage (lit "2024-03-04"))
      [ClickRecord VoiceRecorder.Started;
       SpeechResults
         (VoiceRecorder.mkEvent 0
            [VoiceRecorder.mkResult true (lit "standup")]);
       ClickStop; RecorderStopped] in
  appNarration (app pg) = lit "standup"
  /\ VoiceRecorder.recordingState (voice pg) = VoiceRecorder.FINISHED.
Proof.
  intros pg. split; [reflexivity|].
  destruct (run_narration_trimmed true encodes throwsQuota
              (lit "2024-03-04")
              [ClickRecord VoiceRecorder.Started;
               SpeechResults
                 (VoiceRecorder.mkEvent 0
                    [VoiceRecorder.mkResult true (lit "standup")]);
               ClickStop; RecorderStopped]) as (_ & H & _).
  apply H. discriminate.
Defined.
